(** * react-draggable-ts: the pointer tracker (DraggableCore), the position
    reconciler (Draggable) and their geometry helpers (positionFns, domFns)

    A shallow embedding of
      - src/components/DraggableCore.tsx  (class [DraggableCore]),
      - src/components/Draggable.tsx      (class [Draggable]),
      - src/utils/draggable/positionFns.ts and the parts of domFns.ts the
        two components call,
    followed by the properties of the drag life cycle.

    Numbers.  A JavaScript [number] is modelled as an exact rational or
    [NaN]: arithmetic is exact (no IEEE rounding), and a result that is
    not finite (a division by zero) is collapsed into [NaN].  Negative
    zero is the rational zero.

    Effects.  A handler is a computation over a [World]: the instance
    fields and React state of the tracker, the state of its host, the
    listeners registered on the document, the text-selection guard on the
    body, and the list of callback invocations.  [setState] is applied
    where it is called; no handler reads a state field after it has set
    it, so this agrees with React's batching at the handler's end.  The
    callbacks of the host are functions of the event, the record and the
    state of the host; they return a value or throw, and cannot reach the
    instance fields of the tracker.

    The helpers [isNum] and [findInArray] of utils/draggable/shims are not
    among the sources; they are modelled from the specification.

    Layout: the embedding, the notions the properties are stated with,
    concrete trackers and events, then the facts and the properties. *)

From Stdlib Require Import ZArith QArith Qcanon Qround List String Bool Lia Lqa.
Import ListNotations.

Set Implicit Arguments.

(* ================================================================== *)
(** ** Numbers *)

Module Num.

Inductive num : Type :=
| NaN
| Fin (q : Qc).

(** An integer as a rational. *)
Definition qz (z : Z) : Qc := Q2Qc (inject_Z z).

Definition of_Z (z : Z) : num := Fin (qz z).

Definition Qcleb (a b : Qc) : bool := Qle_bool a b.

Definition add (a b : num) : num :=
  match a, b with
  | Fin x, Fin y => Fin (x + y)%Qc
  | _, _ => NaN
  end.

Definition sub (a b : num) : num :=
  match a, b with
  | Fin x, Fin y => Fin (x - y)%Qc
  | _, _ => NaN
  end.

Definition mul (a b : num) : num :=
  match a, b with
  | Fin x, Fin y => Fin (x * y)%Qc
  | _, _ => NaN
  end.

(** [a / b]; a zero divisor leaves the finite numbers. *)
Definition div (a b : num) : num :=
  match a, b with
  | Fin x, Fin y => if Qc_eq_bool y 0%Qc then NaN else Fin (x / y)%Qc
  | _, _ => NaN
  end.

(** [Math.round]: the nearest integer, a tie going up. *)
Definition Qcround (x : Qc) : Z := Qfloor (x + (1 # 2))%Q.

Definition round (a : num) : num :=
  match a with
  | Fin x => of_Z (Qcround x)
  | NaN => NaN
  end.

(** [Math.min] and [Math.max]: [NaN] if either argument is. *)
Definition min (a b : num) : num :=
  match a, b with
  | Fin x, Fin y => Fin (if Qcleb x y then x else y)
  | _, _ => NaN
  end.

Definition max (a b : num) : num :=
  match a, b with
  | Fin x, Fin y => Fin (if Qcleb x y then y else x)
  | _, _ => NaN
  end.

(** Truthiness of a number: [0] and [NaN] are falsy. *)
Definition truthy (a : num) : bool :=
  match a with
  | NaN => false
  | Fin x => negb (Qc_eq_bool x 0%Qc)
  end.

(** [a || b] on numbers. *)
Definition or_else (a b : num) : num := if truthy a then a else b.

Definition zero : num := of_Z 0.

(** Sum of a list of numbers. *)
Definition sum (l : list num) : num := fold_right add zero l.

(** [a !== b] on numbers: [NaN] differs from itself. *)
Definition strict_neq (a b : num) : bool :=
  match a, b with
  | Fin x, Fin y => negb (Qc_eq_bool x y)
  | _, _ => true
  end.

(** Equality of two numbers as values of the model ([NaN] equals itself
    here; this is not the [===] of the language). *)
Definition eqb (a b : num) : bool :=
  match a, b with
  | NaN, NaN => true
  | Fin x, Fin y => Qc_eq_bool x y
  | _, _ => false
  end.

End Num.

Import Num.

Declare Scope num_scope.
Delimit Scope num_scope with num.
Bind Scope num_scope with num.
Infix "+" := Num.add : num_scope.
Infix "-" := Num.sub : num_scope.
Infix "*" := Num.mul : num_scope.
Infix "/" := Num.div : num_scope.

(** Modelled from the spec: the helper [isNum] of ./shims is not among the
    sources.  The spec calls the initial [lastX]/[lastY] the "undefined
    sentinel" (the constructor stores [NaN]) and says of a bounds
    rectangle that "each side is optional -- absent sides impose no
    limit": [isNum] holds of a present number that is not the sentinel. *)
Definition isNum (v : option num) : bool :=
  match v with
  | Some (Fin _) => true
  | _ => false
  end.

(** Modelled from the spec: the helper [findInArray] of ./shims is not
    among the sources.  "if a touch identifier is tracked and the incoming
    event's touch list lacks that identifier, the event is ignored": the
    first element that satisfies the callback, if there is one. *)
Definition findInArray {A : Type} (array : list A) (callback : A -> bool)
  : option A :=
  List.find callback array.

(* ================================================================== *)
(** ** The DOM as the components see it *)

Definition NodeId := nat.

(** An element used as the origin of coordinates: what [offsetXYFromParent]
    reads of it. *)
Record OffsetEl : Type := {
  el_isBody : bool;          (* offsetParent === offsetParent.ownerDocument.body *)
  el_scrollLeft : num;
  el_scrollTop : num;
  el_rectLeft : num;         (* getBoundingClientRect().left *)
  el_rectTop : num
}.

(** The box of an element, as [getBoundPosition] measures it; the style
    lengths are the values [int] parses. *)
Record Box : Type := {
  clientWidth : num;  clientHeight : num;
  offsetLeft : num;   offsetTop : num;
  paddingLeft : num;  paddingRight : num;
  paddingTop : num;   paddingBottom : num;
  marginLeft : num;   marginRight : num;
  marginTop : num;    marginBottom : num;
  borderLeftWidth : num;  borderRightWidth : num;
  borderTopWidth : num;   borderBottomWidth : num
}.

(** The node the component is mounted on. *)
Record DomNode : Type := {
  node_id : NodeId;
  node_offsetParent : option OffsetEl;   (* node.offsetParent *)
  node_body : option OffsetEl;           (* node.ownerDocument.body, when both exist *)
  node_box : Box;
  node_parent : option Box               (* node.parentNode, when an HTMLElement *)
}.

Record Dom : Type := {
  dom_node : option DomNode;                   (* findDOMNode() *)
  dom_matches : NodeId -> string -> bool;      (* matchesSelector *)
  dom_querySelector : string -> option Box     (* an HTMLElement the selector finds *)
}.

Record Touch : Type := {
  identifier : Z;
  touch_clientX : num;
  touch_clientY : num
}.

(** A mouse or touch event.  [e_button] is [Some] when [typeof e.button]
    is ['number']; [e_target] is [Some] when the target is a Node, and
    lists the target followed by its ancestors ([parentNode] chain);
    the touch lists are [None] on a mouse event; [e_clientX] is [NaN] where
    the event has no such field (it is only used in arithmetic). *)
Record MouseTouchEvent : Type := {
  e_type : string;
  e_button : option Z;
  e_target : option (NodeId * list NodeId);
  e_targetTouches : option (list Touch);
  e_changedTouches : option (list Touch);
  e_clientX : num;
  e_clientY : num
}.

Record ControlPosition : Type := { cp_x : num; cp_y : num }.

Record DraggableData : Type := {
  node : NodeId;
  x : num;  y : num;
  deltaX : num;  deltaY : num;
  lastX : num;  lastY : num
}.

(** What a drag callback returns: the literal [false], or anything else. *)
Inductive RetVal : Type :=
| RetFalse
| RetVoid.

Definition is_false (r : RetVal) : bool :=
  match r with RetFalse => true | RetVoid => false end.

(** [number | null | undefined], as the tracker stores a touch identifier. *)
Inductive TouchId : Type :=
| TidNull
| TidUndefined
| TidNum (n : Z).

(* ================================================================== *)
(** ** Results and the handler monad *)

Inductive Res (A : Type) : Type :=
| Ok (a : A)
| Throw (msg : string).

Arguments Ok {A} a.
Arguments Throw {A} msg.

(* ================================================================== *)
(** ** domFns.ts *)

Definition matchesSelector (dom : Dom) (el : NodeId) (selector : string) : bool :=
  dom_matches dom el selector.

(** The do-while loop of [matchesSelectorAndParentsTo], over the target and
    the chain of its parents. *)
Fixpoint matchesSelectorAndParentsTo_loop (dom : Dom) (nd : NodeId)
    (parents : list NodeId) (selector : string) (baseNode : NodeId) : bool :=
  if matchesSelector dom nd selector then true
  else if Nat.eqb nd baseNode then false
  else match parents with
       | [] => false
       | p :: ps => matchesSelectorAndParentsTo_loop dom p ps selector baseNode
       end.

Definition matchesSelectorAndParentsTo (dom : Dom) (el : NodeId * list NodeId)
    (selector : string) (baseNode : NodeId) : bool :=
  matchesSelectorAndParentsTo_loop dom (fst el) (snd el) selector baseNode.

Definition getTouchIdentifier (e : MouseTouchEvent) : TouchId :=
  match e_targetTouches e with
  | Some (t :: _) => TidNum (identifier t)
  | _ =>
    match e_changedTouches e with
    | Some (t :: _) => TidNum (identifier t)
    | _ => TidUndefined
    end
  end.

Definition getTouch (e : MouseTouchEvent) (id : Z) : option Touch :=
  let byId := fun t : Touch => Z.eqb id (identifier t) in
  match match e_targetTouches e with
        | Some ts => findInArray ts byId
        | None => None
        end with
  | Some t => Some t
  | None =>
    match e_changedTouches e with
    | Some ts => findInArray ts byId
    | None => None
    end
  end.

Definition offsetXYFromParent (clientX clientY : num) (offsetParent : OffsetEl)
    (scale : num) : ControlPosition :=
  let isBody := el_isBody offsetParent in
  let rectLeft := if isBody then Num.zero else el_rectLeft offsetParent in
  let rectTop := if isBody then Num.zero else el_rectTop offsetParent in
  {| cp_x := (clientX + el_scrollLeft offsetParent - rectLeft) / scale;
     cp_y := (clientY + el_scrollTop offsetParent - rectTop) / scale |}%num.

Definition innerWidth (b : Box) : num :=
  (clientWidth b - paddingLeft b - paddingRight b)%num.

(* ================================================================== *)
(** ** positionFns.ts: the pure part *)

Definition snapToGrid (grid : num * num) (pendingX pendingY : num) : num * num :=
  (Num.round (pendingX / fst grid) * fst grid,
   Num.round (pendingY / snd grid) * snd grid)%num.

Definition innerHeight (b : Box) : num :=
  (clientHeight b - paddingTop b - paddingBottom b)%num.

Definition outerHeight (b : Box) : num :=
  (clientHeight b + borderTopWidth b + borderBottomWidth b)%num.

Definition outerWidth (b : Box) : num :=
  (clientWidth b + borderLeftWidth b + borderRightWidth b)%num.

Record Bounds : Type := {
  left : option num;
  top : option num;
  right : option num;
  bottom : option num
}.

Definition cloneBounds (bounds : Bounds) : Bounds :=
  {| left := left bounds; top := top bounds;
     right := right bounds; bottom := bottom bounds |}.

(** The [bounds] prop: [false], a rectangle, or a selector. *)
Inductive BoundsProp : Type :=
| BoundsFalse
| BoundsRect (b : Bounds)
| BoundsSelector (s : string).

(** Truthiness of the prop: [false] and the empty string are falsy. *)
Definition bounds_truthy (b : BoundsProp) : bool :=
  match b with
  | BoundsFalse => false
  | BoundsRect _ => true
  | BoundsSelector s => negb (String.eqb s EmptyString)
  end.

Definition unwrap (v : option num) : num :=
  match v with Some n => n | None => NaN end.

(** The two clamping steps at the end of [getBoundPosition]. *)
Definition clampToBounds (bounds : Bounds) (x y : num) : num * num :=
  (* Keep x and y below right and bottom limits... *)
  let x := if isNum (right bounds) then Num.min x (unwrap (right bounds)) else x in
  let y := if isNum (bottom bounds) then Num.min y (unwrap (bottom bounds)) else y in
  (* But above left and top limits. *)
  let x := if isNum (left bounds) then Num.max x (unwrap (left bounds)) else x in
  let y := if isNum (top bounds) then Num.max y (unwrap (top bounds)) else y in
  (x, y).

(** The rectangle [getBoundPosition] measures for a selector. *)
Definition measureBounds (nd boundNode : Box) : Bounds :=
  {| left := Some (Num.zero - offsetLeft nd + paddingLeft boundNode + marginLeft nd);
     top := Some (Num.zero - offsetTop nd + paddingTop boundNode + marginTop nd);
     right := Some (innerWidth boundNode - outerWidth nd - offsetLeft nd
                    + paddingRight boundNode - marginRight nd);
     bottom := Some (innerHeight boundNode - outerHeight nd - offsetTop nd
                     + paddingBottom boundNode - marginBottom nd) |}%num.

Definition dquote : string := String (Ascii.ascii_of_nat 34) EmptyString.

Definition findDOMNode (dom : Dom) : Res DomNode :=
  match dom_node dom with
  | None => Throw "<DraggableCore>: Unmounted during event!"
  | Some n => Ok n
  end.

Definition getBoundPosition (dom : Dom) (boundsProp : BoundsProp) (x y : num)
  : Res (num * num) :=
  (* If no bounds, short-circuit and move on *)
  if negb (bounds_truthy boundsProp) then Ok (x, y) else
  match findDOMNode dom with
  | Throw msg => Throw msg
  | Ok nd =>
    match boundsProp with
    | BoundsFalse => Ok (x, y)
    | BoundsRect b => Ok (clampToBounds (cloneBounds b) x y)
    | BoundsSelector s =>
      let boundNode :=
        if String.eqb s "parent" then node_parent nd else dom_querySelector dom s in
      match boundNode with
      | None => Throw ("Bounds selector " ++ dquote ++ s ++ dquote
                       ++ " could not find an element.")
      | Some bn => Ok (clampToBounds (measureBounds (node_box nd) bn) x y)
      end
    end
  end.

(* ================================================================== *)
(** ** DraggableCore.tsx: the pointer tracker *)

Record EventNames : Type := {
  ev_start : string;
  ev_move : string;
  ev_stop : string
}.

Module eventsFor.
Definition touch : EventNames :=
  {| ev_start := "touchstart"; ev_move := "touchmove"; ev_stop := "touchend" |}.
Definition mouse : EventNames :=
  {| ev_start := "mousedown"; ev_move := "mousemove"; ev_stop := "mouseup" |}.
End eventsFor.

Record DraggableCoreState : Type := {
  dragging : bool;
  (* Used while dragging to determine deltas. *)
  st_lastX : num;
  st_lastY : num;
  touchIdentifier : TouchId
}.

(** The handlers the tracker registers as listeners. *)
Inductive Listener : Type :=
| HandleDrag
| HandleDragStop
| OnTouchStart.

Inductive EventTarget : Type :=
| OnDocument
| OnNode.

Record Registration : Type := {
  reg_target : EventTarget;
  reg_event : string;
  reg_handler : Listener
}.

Definition Listener_eqb (a b : Listener) : bool :=
  match a, b with
  | HandleDrag, HandleDrag | HandleDragStop, HandleDragStop
  | OnTouchStart, OnTouchStart => true
  | _, _ => false
  end.

Definition EventTarget_eqb (a b : EventTarget) : bool :=
  match a, b with
  | OnDocument, OnDocument | OnNode, OnNode => true
  | _, _ => false
  end.

Definition Registration_eqb (a b : Registration) : bool :=
  EventTarget_eqb (reg_target a) (reg_target b)
  && String.eqb (reg_event a) (reg_event b)
  && Listener_eqb (reg_handler a) (reg_handler b).

(** A callback the tracker invoked, with its arguments. *)
Inductive Call : Type :=
| CallMouseDown (e : MouseTouchEvent)
| CallStart (e : MouseTouchEvent) (data : DraggableData)
| CallDrag (e : MouseTouchEvent) (data : DraggableData)
| CallStop (e : MouseTouchEvent) (data : DraggableData).

Section Handlers.

(** The state of the host, which the callbacks may read and change. *)
Variable Host : Type.

Definition DraggableEventHandler : Type :=
  MouseTouchEvent -> DraggableData -> Host -> Res RetVal * Host.

Record DraggableCoreProps : Type := {
  allowAnyClick : bool;
  disabled : bool;
  enableUserSelectHack : bool;
  onStart : DraggableEventHandler;
  onDrag : DraggableEventHandler;
  onStop : DraggableEventHandler;
  onMouseDown : MouseTouchEvent -> Host -> Host;
  scale : num;
  cancel : option string;
  offsetParent : option OffsetEl;
  grid : option (num * num);
  handle : option string
}.

Record World : Type := {
  (* the instance *)
  state : DraggableCoreState;
  mounted : bool;
  dragEventFor : EventNames;
  (* its surroundings *)
  host : Host;
  listeners : list Registration;
  selectGuard : bool;        (* the user-select class on the body *)
  calls : list Call          (* callbacks invoked so far, oldest first *)
}.

Definition M (A : Type) : Type := World -> Res A * World.

Definition ret {A} (a : A) : M A := fun w => (Ok a, w).

Definition bind {A B} (m : M A) (k : A -> M B) : M B :=
  fun w =>
    match m w with
    | (Ok a, w') => k a w'
    | (Throw msg, w') => (Throw msg, w')
    end.

Definition throw {A} (msg : string) : M A := fun w => (Throw msg, w).

Definition lift {A} (r : Res A) : M A := fun w => (r, w).

Definition gets {A} (f : World -> A) : M A := fun w => (Ok (f w), w).

Definition modify (f : World -> World) : M unit := fun w => (Ok tt, f w).

Definition when (b : bool) (m : M unit) : M unit := if b then m else ret tt.

End Handlers.

Arguments ret {Host A} a.
Arguments bind {Host A B} m k.
Arguments throw {Host A} msg.
Arguments lift {Host A} r.
Arguments gets {Host A} f.
Arguments modify {Host} f.
Arguments when {Host} b m.

Declare Scope handler_scope.
Delimit Scope handler_scope with handler.
Notation "x <- m ;; k" := (bind m (fun x => k))
  (at level 61, m at next level, right associativity) : handler_scope.
Notation "m ;; k" := (bind m (fun _ => k))
  (at level 61, right associativity) : handler_scope.

Open Scope handler_scope.

Module DraggableCore.

Section Tracker.

Variable Host : Type.
Variable props : DraggableCoreProps Host.
Variable dom : Dom.

Local Abbreviation World := (World Host).
Local Abbreviation M := (M Host).

(** *** Updates of the world *)

Definition with_state (f : DraggableCoreState -> DraggableCoreState) (w : World)
  : World :=
  {| state := f (state w); mounted := mounted w; dragEventFor := dragEventFor w;
     host := host w; listeners := listeners w; selectGuard := selectGuard w;
     calls := calls w |}.

Definition with_mounted (b : bool) (w : World) : World :=
  {| state := state w; mounted := b; dragEventFor := dragEventFor w;
     host := host w; listeners := listeners w; selectGuard := selectGuard w;
     calls := calls w |}.

Definition with_dragEventFor (n : EventNames) (w : World) : World :=
  {| state := state w; mounted := mounted w; dragEventFor := n;
     host := host w; listeners := listeners w; selectGuard := selectGuard w;
     calls := calls w |}.

Definition with_host (h : Host) (w : World) : World :=
  {| state := state w; mounted := mounted w; dragEventFor := dragEventFor w;
     host := h; listeners := listeners w; selectGuard := selectGuard w;
     calls := calls w |}.

Definition with_listeners (l : list Registration) (w : World) : World :=
  {| state := state w; mounted := mounted w; dragEventFor := dragEventFor w;
     host := host w; listeners := l; selectGuard := selectGuard w;
     calls := calls w |}.

Definition with_selectGuard (b : bool) (w : World) : World :=
  {| state := state w; mounted := mounted w; dragEventFor := dragEventFor w;
     host := host w; listeners := listeners w; selectGuard := b;
     calls := calls w |}.

Definition with_call (c : Call) (w : World) : World :=
  {| state := state w; mounted := mounted w; dragEventFor := dragEventFor w;
     host := host w; listeners := listeners w; selectGuard := selectGuard w;
     calls := calls w ++ [c] |}.

(** [this.setState( { touchIdentifier } )] *)
Definition setTouchIdentifier (t : TouchId) (s : DraggableCoreState)
  : DraggableCoreState :=
  {| dragging := dragging s; st_lastX := st_lastX s; st_lastY := st_lastY s;
     touchIdentifier := t |}.

(** [this.setState( { dragging, lastX, lastY } )] *)
Definition setDragging (d : bool) (lx ly : num) (s : DraggableCoreState)
  : DraggableCoreState :=
  {| dragging := d; st_lastX := lx; st_lastY := ly;
     touchIdentifier := touchIdentifier s |}.

(** [this.setState( { lastX, lastY } )] *)
Definition setLast (lx ly : num) (s : DraggableCoreState) : DraggableCoreState :=
  {| dragging := dragging s; st_lastX := lx; st_lastY := ly;
     touchIdentifier := touchIdentifier s |}.

Definition setState (f : DraggableCoreState -> DraggableCoreState) : M unit :=
  modify (with_state f).

(** *** Listeners and the selection guard (domFns.ts) *)

Definition addEvent (el : EventTarget) (event : string) (handler : Listener)
  : M unit :=
  modify (fun w =>
    let r := {| reg_target := el; reg_event := event; reg_handler := handler |} in
    if existsb (Registration_eqb r) (listeners w) then w
    else with_listeners (listeners w ++ [r]) w).

Definition removeEvent (el : EventTarget) (event : string) (handler : Listener)
  : M unit :=
  modify (fun w =>
    let r := {| reg_target := el; reg_event := event; reg_handler := handler |} in
    with_listeners (filter (fun r' => negb (Registration_eqb r r')) (listeners w)) w).

Definition addUserSelectStyles : M unit := modify (with_selectGuard true).

Definition removeUserSelectStyles : M unit := modify (with_selectGuard false).

(** *** Callbacks *)

Definition invoke (mk : MouseTouchEvent -> DraggableData -> Call)
    (cb : DraggableEventHandler Host) (e : MouseTouchEvent) (data : DraggableData)
  : M RetVal :=
  fun w =>
    let w1 := with_call (mk e data) w in
    let (r, h) := cb e data (host w1) in
    (r, with_host h w1).

Definition invokeMouseDown (e : MouseTouchEvent) : M unit :=
  modify (fun w => with_host (onMouseDown props e (host w)) (with_call (CallMouseDown e) w)).

(** *** positionFns.ts: the functions that read the tracker *)

Definition getControlPosition (e : MouseTouchEvent) (tid : TouchId)
  : Res (option ControlPosition) :=
  let touchObj := match tid with TidNum n => getTouch e n | _ => None end in
  match tid, touchObj with
  | TidNum _, None => Ok None   (* not the right touch *)
  | _, _ =>
    match findDOMNode dom with
    | Throw msg => Throw msg
    | Ok nd =>
      (* User can provide an offsetParent if desired. *)
      let op :=
        match offsetParent props with
        | Some p => Some p
        | None =>
          match node_offsetParent nd with
          | Some p => Some p
          | None => node_body nd
          end
        end in
      match op with
      | None => Throw "TypeError: offsetParent is null"
      | Some p =>
        let cx := match touchObj with Some t => touch_clientX t | None => e_clientX e end in
        let cy := match touchObj with Some t => touch_clientY t | None => e_clientY e end in
        Ok (Some (offsetXYFromParent cx cy p (scale props)))
      end
    end
  end.

Definition createCoreData (st : DraggableCoreState) (x y : num)
  : Res DraggableData :=
  let isStart := negb (isNum (Some (st_lastX st))) in
  match findDOMNode dom with
  | Throw msg => Throw msg
  | Ok nd =>
    if isStart then
      (* If this is our first move, use the x and y as last coords. *)
      Ok {| node := node_id nd;
            deltaX := Num.zero; deltaY := Num.zero;
            lastX := x; lastY := y;
            x := x; y := y |}
    else
      (* Otherwise calculate proper values. *)
      Ok {| node := node_id nd;
            deltaX := (x - st_lastX st)%num; deltaY := (y - st_lastY st)%num;
            lastX := st_lastX st; lastY := st_lastY st;
            x := x; y := y |}
  end.

(** *** The handlers *)

Definition str_truthy (s : option string) : bool :=
  match s with
  | None => false
  | Some s => negb (String.eqb s EmptyString)
  end.

Definition str_get (s : option string) : string :=
  match s with Some s => s | None => EmptyString end.

Definition componentDidMount : M unit :=
  modify (with_mounted true) ;;
  match dom_node dom with
  | Some _ => addEvent OnNode (ev_start eventsFor.touch) OnTouchStart
  | None => ret tt
  end.

(** [!this.props.allowAnyClick && typeof e.button === 'number' && e.button !== 0] *)
Definition notLeftClick (e : MouseTouchEvent) : bool :=
  negb (allowAnyClick props)
  && match e_button e with Some b => negb (Z.eqb b 0) | None => false end.

(** The node [handleDragStart] requires: mounted, in a document with a body. *)
Definition mountedNode : option DomNode :=
  match dom_node dom with
  | Some nd => match node_body nd with Some _ => Some nd | None => None end
  | None => None
  end.

(** The condition under which [handleDragStart] short-circuits: disabled,
    a target that is no Node, a handle that does not match or a cancel
    that does. *)
Definition shortCircuits (e : MouseTouchEvent) (thisNode : DomNode) : bool :=
  disabled props
  || match e_target e with
     | None => true
     | Some tgt =>
       (str_truthy (handle props)
        && negb (matchesSelectorAndParentsTo dom tgt (str_get (handle props))
                   (node_id thisNode)))
       || (str_truthy (cancel props)
           && matchesSelectorAndParentsTo dom tgt (str_get (cancel props))
                (node_id thisNode))
     end.

Definition handleDragStart (e : MouseTouchEvent) : M RetVal :=
  (* Make it possible to attach event handlers on top of this one. *)
  invokeMouseDown e ;;
  (* Only accept left-clicks. *)
  if notLeftClick e then ret RetFalse else
  match mountedNode with
  | None => throw "<DraggableCore> not mounted on DragStart!"
  | Some thisNode =>
    (* Short circuit if handle or cancel prop was provided and selector doesn't match. *)
    if shortCircuits e thisNode then ret RetVoid else
    (* Prevent scrolling on mobile devices: [e.preventDefault()] on a
       touchstart changes nothing the tracker reads. *)
    (* Set touch identifier in component state if this is a touch event. *)
    let touchIdentifier := getTouchIdentifier e in
    setState (setTouchIdentifier touchIdentifier) ;;
    (* Get the current drag point from the event. This is used as the offset. *)
    position <- lift (getControlPosition e touchIdentifier) ;;
    match position with
    | None => ret RetVoid
    | Some position =>
      let x := cp_x position in
      let y := cp_y position in
      (* Create an event object with all the data parents need to make a decision here. *)
      st <- gets (@state Host) ;;
      coreEvent <- lift (createCoreData st x y) ;;
      (* Call event handler. If it returns explicit false, cancel. *)
      shouldUpdate <- invoke CallStart (onStart props) e coreEvent ;;
      isMounted <- gets (@mounted Host) ;;
      if is_false shouldUpdate || negb isMounted then ret RetVoid else
      (* Add a style to the body to disable user-select. *)
      when (enableUserSelectHack props) addUserSelectStyles ;;
      (* Initiate dragging. Set the current x and y as offsets. *)
      setState (setDragging true x y) ;;
      (* Add events to the document directly. *)
      names <- gets (@dragEventFor Host) ;;
      addEvent OnDocument (ev_move names) HandleDrag ;;
      addEvent OnDocument (ev_stop names) HandleDragStop ;;
      ret RetVoid
    end
  end.

(** The grid block of [handleDragStop]: the position snapped to the grid. *)
Definition snapStop (st : DraggableCoreState) (x y : num) : num * num :=
  match grid props with
  | Some g =>
    let deltaX := Num.or_else (x - st_lastX st)%num Num.zero in
    let deltaY := Num.or_else (y - st_lastY st)%num Num.zero in
    let '(deltaX, deltaY) := snapToGrid g deltaX deltaY in
    ((st_lastX st + deltaX)%num, (st_lastY st + deltaY)%num)
  | None => (x, y)
  end.

Definition handleDragStop (e : MouseTouchEvent) : M RetVal :=
  st <- gets (@state Host) ;;
  if negb (dragging st) then ret RetVoid else
  position <- lift (getControlPosition e (touchIdentifier st)) ;;
  match position with
  | None => ret RetVoid
  | Some position =>
    (* Snap to grid if prop has been provided *)
    let '(x, y) := snapStop st (cp_x position) (cp_y position) in
    coreEvent <- lift (createCoreData st x y) ;;
    (* Call event handler *)
    shouldContinue <- invoke CallStop (onStop props) e coreEvent ;;
    isMounted <- gets (@mounted Host) ;;
    if is_false shouldContinue || negb isMounted then ret RetFalse else
    let thisNode := dom_node dom in
    (* Remove user-select hack *)
    when (match thisNode with Some _ => enableUserSelectHack props | None => false end)
      removeUserSelectStyles ;;
    (* Reset the el. *)
    setState (setDragging false NaN NaN) ;;
    match thisNode with
    | Some _ =>
      (* Remove event handlers *)
      names <- gets (@dragEventFor Host) ;;
      removeEvent OnDocument (ev_move names) HandleDrag ;;
      removeEvent OnDocument (ev_stop names) HandleDragStop ;;
      ret RetVoid
    | None => ret RetVoid
    end
  end.

(** [new MouseEvent( 'mouseup' )], and the event of the same content that
    [document.createEvent] and [initMouseEvent] build in old browsers. *)
Definition syntheticMouseUp : MouseTouchEvent :=
  {| e_type := "mouseup"; e_button := Some 0%Z; e_target := None;
     e_targetTouches := None; e_changedTouches := None;
     e_clientX := Num.zero; e_clientY := Num.zero |}.

Definition legacyMouseUp : MouseTouchEvent := syntheticMouseUp.

(** [try { m } catch ( err ) { h }] *)
Definition try_catch {A} (m h : M A) : M A :=
  fun w =>
    match m w with
    | (Ok a, w') => (Ok a, w')
    | (Throw _, w') => h w'
    end.

(** The grid block of [handleDrag]: the position snapped to the grid, or
    [None] where the move is skipped. *)
Definition snapDrag (st : DraggableCoreState) (x y : num) : option (num * num) :=
  match grid props with
  | Some g =>
    let deltaX := (x - st_lastX st)%num in
    let deltaY := (y - st_lastY st)%num in
    let '(deltaX, deltaY) := snapToGrid g deltaX deltaY in
    if negb (Num.truthy deltaX) && negb (Num.truthy deltaY)
    then None   (* skip useless drag *)
    else Some ((st_lastX st + deltaX)%num, (st_lastY st + deltaY)%num)
  | None => Some (x, y)
  end.

Definition handleDrag (e : MouseTouchEvent) : M unit :=
  st <- gets (@state Host) ;;
  position <- lift (getControlPosition e (touchIdentifier st)) ;;
  match position with
  | None => ret tt
  | Some position =>
    (* Snap to grid if prop has been provided *)
    match snapDrag st (cp_x position) (cp_y position) with
    | None => ret tt
    | Some (x, y) =>
      coreEvent <- lift (createCoreData st x y) ;;
      (* Call event handler. If it returns explicit false, trigger end. *)
      shouldUpdate <- invoke CallDrag (onDrag props) e coreEvent ;;
      isMounted <- gets (@mounted Host) ;;
      if is_false shouldUpdate || negb isMounted then
        try_catch (handleDragStop syntheticMouseUp) (handleDragStop legacyMouseUp) ;;
        ret tt
      else
        setState (setLast x y)
    end
  end.

Definition onMouseDown (e : MouseTouchEvent) : M RetVal :=
  (* on touchscreen laptops we could switch back to mouse *)
  modify (with_dragEventFor eventsFor.mouse) ;;
  handleDragStart e.

Definition onMouseUp (e : MouseTouchEvent) : M RetVal :=
  modify (with_dragEventFor eventsFor.mouse) ;;
  handleDragStop e.

(** Same as onMouseDown (start drag), but now consider this a touch device. *)
Definition onTouchStart (e : MouseTouchEvent) : M RetVal :=
  modify (with_dragEventFor eventsFor.touch) ;;
  handleDragStart e.

Definition onTouchEnd (e : MouseTouchEvent) : M RetVal :=
  modify (with_dragEventFor eventsFor.touch) ;;
  handleDragStop e.

(** *** Delivery of an event to the registered listeners *)

Definition runListener (l : Listener) (e : MouseTouchEvent) : M unit :=
  match l with
  | HandleDrag => handleDrag e
  | HandleDragStop => handleDragStop e ;; ret tt
  | OnTouchStart => onTouchStart e ;; ret tt
  end.

Definition listensTo (el : EventTarget) (e : MouseTouchEvent) (r : Registration)
  : bool :=
  EventTarget_eqb (reg_target r) el && String.eqb (reg_event r) (e_type e).

(** The listeners present when the event arrives run in the order of
    their registration, one that has been removed meanwhile is skipped,
    and an exception of a listener does not stop the delivery. *)
Fixpoint deliver (snapshot : list Registration) (el : EventTarget)
    (e : MouseTouchEvent) : M unit :=
  match snapshot with
  | [] => ret tt
  | r :: rs =>
    current <- gets (@listeners Host) ;;
    (if listensTo el e r && existsb (Registration_eqb r) current
     then try_catch (runListener (reg_handler r) e) (ret tt)
     else ret tt) ;;
    deliver rs el e
  end.

Definition dispatchEvent (el : EventTarget) (e : MouseTouchEvent) : M unit :=
  snapshot <- gets (@listeners Host) ;;
  deliver snapshot el e.

(** The constructor. *)
Definition initialState : DraggableCoreState :=
  {| dragging := false; st_lastX := NaN; st_lastY := NaN;
     touchIdentifier := TidNull |}.

Definition construct (h : Host) : World :=
  {| state := initialState; mounted := false; dragEventFor := eventsFor.mouse;
     host := h; listeners := []; selectGuard := false; calls := [] |}.

End Tracker.

End DraggableCore.

(* ================================================================== *)
(** ** Draggable.tsx: the position reconciler *)

Inductive Axis : Type :=
| AxisBoth
| AxisX
| AxisY
| AxisNone.

Record DraggableState : Type := {
  ds_dragging : bool;
  (* Whether or not we have been dragged before. *)
  ds_dragged : bool;
  (* Current transform x and y. *)
  ds_x : num;
  ds_y : num;
  prevPropsPosition : ControlPosition;
  (* Used for compensating for out-of-bounds drags *)
  slackX : num;
  slackY : num;
  (* Can only determine if SVG after mounting *)
  isElementSVG : bool
}.

(** The props of [Draggable]: those it hands down to the tracker (with the
    callbacks of its own host, the user) and those it keeps. *)
Record DraggableProps (User : Type) : Type := {
  coreProps : DraggableCoreProps User;
  axis : Axis;
  bounds : BoundsProp;
  defaultPosition : ControlPosition;
  position : option ControlPosition
}.

(** What the tracker sees as its host: the reconciler's React state, the
    user's state, and the user callbacks the reconciler invoked. *)
Record Reconciler (User : Type) : Type := {
  dstate : DraggableState;
  user : User;
  userCalls : list Call
}.

Definition canDragX (a : Axis) : bool :=
  match a with AxisBoth | AxisX => true | _ => false end.

Definition canDragY (a : Axis) : bool :=
  match a with AxisBoth | AxisY => true | _ => false end.

Module Draggable.

Section Reconciler.

Variable User : Type.
Variable props : DraggableProps User.
Variable dom : Dom.

Local Abbreviation Reconciler := (Reconciler User).

Definition with_dstate (s : DraggableState) (r : Reconciler) : Reconciler :=
  {| dstate := s; user := user r; userCalls := userCalls r |}.

(** [this.props.onX( e, data )], recorded. *)
Definition invokeUser (mk : MouseTouchEvent -> DraggableData -> Call)
    (cb : DraggableEventHandler User) (e : MouseTouchEvent) (data : DraggableData)
    (r : Reconciler) : Res RetVal * Reconciler :=
  let (v, u) := cb e data (user r) in
  (v, {| dstate := dstate r; user := u; userCalls := userCalls r ++ [mk e data] |}).

Definition createDraggableData (st : DraggableState) (coreData : DraggableData)
  : DraggableData :=
  let scale := scale (coreProps props) in
  {| node := node coreData;
     x := (ds_x st + (deltaX coreData / scale))%num;
     y := (ds_y st + (deltaY coreData / scale))%num;
     deltaX := (deltaX coreData / scale)%num;
     deltaY := (deltaY coreData / scale)%num;
     lastX := ds_x st;
     lastY := ds_y st |}.

Definition constructorState : DraggableState :=
  {| ds_dragging := false;
     ds_dragged := false;
     ds_x := match position props with
             | Some p => cp_x p
             | None => cp_x (defaultPosition props)
             end;
     ds_y := match position props with
             | Some p => cp_y p
             | None => cp_y (defaultPosition props)
             end;
     prevPropsPosition := match position props with
                          | Some p => p
                          | None => defaultPosition props
                          end;
     slackX := Num.zero; slackY := Num.zero;
     isElementSVG := false |}.

(** Set x/y if a new position is provided in props that is different than
    the previous. *)
Definition getDerivedStateFromProps (st : DraggableState) : DraggableState :=
  match position props with
  | Some p =>
    if Num.strict_neq (cp_x p) (cp_x (prevPropsPosition st))
       || Num.strict_neq (cp_y p) (cp_y (prevPropsPosition st))
    then {| ds_dragging := ds_dragging st; ds_dragged := ds_dragged st;
            ds_x := cp_x p; ds_y := cp_y p;
            prevPropsPosition := p;
            slackX := slackX st; slackY := slackY st;
            isElementSVG := isElementSVG st |}
    else st
  | None => st
  end.

(** prevents invariant if unmounted while dragging *)
Definition componentWillUnmount (st : DraggableState) : DraggableState :=
  {| ds_dragging := false; ds_dragged := ds_dragged st;
     ds_x := ds_x st; ds_y := ds_y st;
     prevPropsPosition := prevPropsPosition st;
     slackX := slackX st; slackY := slackY st;
     isElementSVG := isElementSVG st |}.

Definition onDragStart : DraggableEventHandler Reconciler :=
  fun e coreData r =>
    let st := dstate r in
    (* Short-circuit if user's callback killed it. *)
    match invokeUser CallStart (onStart (coreProps props)) e
            (createDraggableData st coreData) r with
    | (Throw msg, r1) => (Throw msg, r1)
    | (Ok shouldStart, r1) =>
      (* Kills start event on core as well, so move handlers are never bound. *)
      if is_false shouldStart then (Ok RetFalse, r1) else
      (Ok RetVoid,
       with_dstate
         {| ds_dragging := true; ds_dragged := true;
            ds_x := ds_x (dstate r1); ds_y := ds_y (dstate r1);
            prevPropsPosition := prevPropsPosition (dstate r1);
            slackX := slackX (dstate r1); slackY := slackY (dstate r1);
            isElementSVG := isElementSVG (dstate r1) |} r1)
    end.

(** The state and the record [onDrag] has built when it calls the user:
    [newState] and [uiData]. *)
Definition dragStep (st : DraggableState) (coreData : DraggableData)
  : Res (DraggableState * DraggableData) :=
  let uiData := createDraggableData st coreData in
  let newX := x uiData in
  let newY := y uiData in
  (* Keep within bounds. *)
  if bounds_truthy (bounds props) then
    (* Save original x and y. *)
    let x0 := newX in
    let y0 := newY in
    (* Add slack to the values used to calculate bound position. *)
    let newX := (newX + slackX st)%num in
    let newY := (newY + slackY st)%num in
    (* Get bound position. This will ceil/floor the x and y within the boundaries. *)
    match getBoundPosition dom (bounds props) newX newY with
    | Throw msg => Throw msg
    | Ok (newStateX, newStateY) =>
      (* Recalculate slack by noting how much was shaved by the boundPosition handler. *)
      let newState :=
        {| ds_dragging := ds_dragging st; ds_dragged := ds_dragged st;
           ds_x := newStateX; ds_y := newStateY;
           prevPropsPosition := prevPropsPosition st;
           slackX := (slackX st + (x0 - newStateX))%num;
           slackY := (slackY st + (y0 - newStateY))%num;
           isElementSVG := isElementSVG st |} in
      (* Update the event we fire to reflect what really happened after bounds took effect. *)
      let uiData :=
        {| node := node uiData;
           x := newStateX; y := newStateY;
           deltaX := (newStateX - ds_x st)%num;
           deltaY := (newStateY - ds_y st)%num;
           lastX := lastX uiData; lastY := lastY uiData |} in
      Ok (newState, uiData)
    end
  else
    Ok ({| ds_dragging := ds_dragging st; ds_dragged := ds_dragged st;
           ds_x := newX; ds_y := newY;
           prevPropsPosition := prevPropsPosition st;
           slackX := slackX st; slackY := slackY st;
           isElementSVG := isElementSVG st |}, uiData).

(** [this.props.onDrag], the user's callback. *)
Definition userOnDrag : DraggableEventHandler User := onDrag (coreProps props).

Definition onDrag : DraggableEventHandler Reconciler :=
  fun e coreData r =>
    let st := dstate r in
    if negb (ds_dragging st) then (Ok RetFalse, r) else
    match dragStep st coreData with
    | Throw msg => (Throw msg, r)
    | Ok (newState, uiData) =>
      (* Short-circuit if user's callback killed it. *)
      match invokeUser CallDrag userOnDrag e uiData r with
      | (Throw msg, r1) => (Throw msg, r1)
      | (Ok shouldUpdate, r1) =>
        if is_false shouldUpdate then (Ok RetFalse, r1) else
        (Ok RetVoid, with_dstate newState r1)
      end
    end.

Definition onDragStop : DraggableEventHandler Reconciler :=
  fun e coreData r =>
    let st := dstate r in
    if negb (ds_dragging st) then (Ok RetFalse, r) else
    (* Short-circuit if user's callback killed it. *)
    match invokeUser CallStop (onStop (coreProps props)) e
            (createDraggableData st coreData) r with
    | (Throw msg, r1) => (Throw msg, r1)
    | (Ok shouldContinue, r1) =>
      if is_false shouldContinue then (Ok RetFalse, r1) else
      (* If this is a controlled component, the result of this operation will be to
         revert back to the old position. *)
      let controlled := position props in
      (Ok RetVoid,
       with_dstate
         {| ds_dragging := false; ds_dragged := ds_dragged st;
            ds_x := match controlled with Some p => cp_x p | None => ds_x st end;
            ds_y := match controlled with Some p => cp_y p | None => ds_y st end;
            prevPropsPosition := prevPropsPosition st;
            slackX := Num.zero; slackY := Num.zero;
            isElementSVG := isElementSVG st |} r1)
    end.

(** The props [render] gives the tracker: the user's, with the three
    callbacks replaced by the reconciler's and [onMouseDown] the user's. *)
Definition renderCoreProps : DraggableCoreProps Reconciler :=
  let p := coreProps props in
  Build_DraggableCoreProps
    (allowAnyClick p)
    (disabled p)
    (enableUserSelectHack p)
    (* onStart, onDrag, onStop *)
    onDragStart onDrag onDragStop
    (* onMouseDown *)
    (fun e r =>
       {| dstate := dstate r; user := onMouseDown p e (user r);
          userCalls := userCalls r ++ [CallMouseDown e] |})
    (scale p)
    (cancel p)
    (offsetParent p)
    (grid p)
    (handle p).

(** The position [render] displays. *)
Definition renderedPosition (st : DraggableState) : ControlPosition :=
  (* If this is controlled, we don't want to move it - unless it's dragging. *)
  let controlled := match position props with Some _ => true | None => false end in
  let draggable := negb controlled || ds_dragging st in
  let validPosition :=
    match position props with Some p => p | None => defaultPosition props end in
  {| cp_x := if canDragX (axis props) && draggable then ds_x st else cp_x validPosition;
     cp_y := if canDragY (axis props) && draggable then ds_y st else cp_y validPosition |}.

End Reconciler.

End Draggable.

(* ================================================================== *)
(** ** Notions the properties are stated with *)

(** The two registrations a session makes on the document. *)
Definition moveRegistration (n : EventNames) : Registration :=
  {| reg_target := OnDocument; reg_event := ev_move n; reg_handler := HandleDrag |}.

Definition stopRegistration (n : EventNames) : Registration :=
  {| reg_target := OnDocument; reg_event := ev_stop n; reg_handler := HandleDragStop |}.

Definition onDocument (r : Registration) : bool :=
  EventTarget_eqb (reg_target r) OnDocument.

(** The listeners on the document are those of a session opened under the
    device family the tracker currently remembers. *)
Definition sessionListeners {Host : Type} (w : World Host) : Prop :=
  forall r, In r (listeners w) -> onDocument r = true ->
            r = moveRegistration (dragEventFor w)
            \/ r = stopRegistration (dragEventFor w).

Definition unregister (r : Registration) (l : list Registration) : list Registration :=
  filter (fun r' => negb (Registration_eqb r r')) l.

(** The tracker state after a stop that was not vetoed. *)
Definition closedState (st : DraggableCoreState) : DraggableCoreState :=
  DraggableCore.setDragging false NaN NaN st.

(** The world the tail of [handleDragStop] leaves, on a mounted node. *)
Definition closeSession {Host : Type} (props : DraggableCoreProps Host)
    (w : World Host) : World Host :=
  let w1 := if enableUserSelectHack props
            then DraggableCore.with_selectGuard false w else w in
  let w2 := DraggableCore.with_state closedState w1 in
  DraggableCore.with_listeners
    (unregister (stopRegistration (dragEventFor w))
       (unregister (moveRegistration (dragEventFor w)) (listeners w))) w2.

(** A run of move events, and a whole session: down, moves, up. *)
Fixpoint moves {Host : Type} (props : DraggableCoreProps Host) (dom : Dom)
    (es : list MouseTouchEvent) : M Host unit :=
  match es with
  | [] => ret tt
  | e :: es' => DraggableCore.handleDrag props dom e ;; moves props dom es'
  end.

Definition session {Host : Type} (props : DraggableCoreProps Host) (dom : Dom)
    (e0 : MouseTouchEvent) (es : list MouseTouchEvent) (eup : MouseTouchEvent)
  : M Host RetVal :=
  DraggableCore.handleDragStart props dom e0 ;;
  moves props dom es ;;
  DraggableCore.handleDragStop props dom eup.

Definition finitePosition (p : Qc * Qc) : ControlPosition :=
  {| cp_x := Fin (fst p); cp_y := Fin (snd p) |}.

(** The record of the first sample of a session, at [p]. *)
Definition firstSample (nid : NodeId) (p : Qc * Qc) : DraggableData :=
  {| node := nid;
     x := Fin (fst p); y := Fin (snd p);
     deltaX := Num.zero; deltaY := Num.zero;
     lastX := Fin (fst p); lastY := Fin (snd p) |}.

(** The record of a sample at [p] that follows a sample at [l]. *)
Definition sampleAfter (nid : NodeId) (l p : Qc * Qc) : DraggableData :=
  {| node := nid;
     x := Fin (fst p); y := Fin (snd p);
     deltaX := Fin (fst p - fst l); deltaY := Fin (snd p - snd l);
     lastX := Fin (fst l); lastY := Fin (snd l) |}.

Fixpoint dragRecords (nid : NodeId) (l : Qc * Qc) (ps : list (Qc * Qc))
  : list DraggableData :=
  match ps with
  | [] => []
  | p :: ps' => sampleAfter nid l p :: dragRecords nid p ps'
  end.

Definition dragCalls (es : list MouseTouchEvent) (ds : list DraggableData)
  : list Call :=
  map (fun ed => CallDrag (fst ed) (snd ed)) (combine es ds).

(** The records a list of calls handed to the callbacks. *)
Definition callData (c : Call) : list DraggableData :=
  match c with
  | CallMouseDown _ => []
  | CallStart _ d | CallDrag _ d | CallStop _ d => [d]
  end.

Definition emitted (cs : list Call) : list DraggableData := flat_map callData cs.

(** The records handed to the move callback. *)
Definition dragData (cs : list Call) : list DraggableData :=
  flat_map (fun c => match c with CallDrag _ d => [d] | _ => [] end) cs.

(** The records handed to the stop callback. *)
Definition stopData (cs : list Call) : list DraggableData :=
  flat_map (fun c => match c with CallStop _ d => [d] | _ => [] end) cs.

(** The state [Draggable.onDragStop] commits. *)
Definition stoppedState {User : Type} (dprops : DraggableProps User)
    (st : DraggableState) : DraggableState :=
  {| ds_dragging := false; ds_dragged := ds_dragged st;
     ds_x := match position dprops with Some p => cp_x p | None => ds_x st end;
     ds_y := match position dprops with Some p => cp_y p | None => ds_y st end;
     prevPropsPosition := prevPropsPosition st;
     slackX := Num.zero; slackY := Num.zero;
     isElementSVG := isElementSVG st |}.

(** [addEventListener] on a list of registrations: one that is there
    already is not added again. *)
Definition register (r : Registration) (l : list Registration) : list Registration :=
  if existsb (Registration_eqb r) l then l else l ++ [r].

(** The world the tail of [handleDragStart] leaves, for the position [p]. *)
Definition openSession {Host : Type} (props : DraggableCoreProps Host)
    (p : ControlPosition) (w : World Host) : World Host :=
  let w1 := if enableUserSelectHack props
            then DraggableCore.with_selectGuard true w else w in
  let w2 := DraggableCore.with_state
              (DraggableCore.setDragging true (cp_x p) (cp_y p)) w1 in
  DraggableCore.with_listeners
    (register (stopRegistration (dragEventFor w))
       (register (moveRegistration (dragEventFor w)) (listeners w))) w2.

(** A run of records handed to [Draggable.onDrag], one after the other. *)
Fixpoint drags {User : Type} (dprops : DraggableProps User) (dom : Dom)
    (steps : list (MouseTouchEvent * DraggableData)) (r : Reconciler User)
  : Reconciler User :=
  match steps with
  | [] => r
  | (e, cd) :: rest =>
    drags dprops dom rest (snd (Draggable.onDrag dprops dom e cd r))
  end.

(** A box whose measures are all numbers. *)
Record BoxMeasures : Type := {
  m_clientWidth : Qc;  m_clientHeight : Qc;
  m_offsetLeft : Qc;   m_offsetTop : Qc;
  m_paddingLeft : Qc;  m_paddingRight : Qc;
  m_paddingTop : Qc;   m_paddingBottom : Qc;
  m_marginLeft : Qc;   m_marginRight : Qc;
  m_marginTop : Qc;    m_marginBottom : Qc;
  m_borderLeftWidth : Qc;  m_borderRightWidth : Qc;
  m_borderTopWidth : Qc;   m_borderBottomWidth : Qc
}.

Definition boxOf (m : BoxMeasures) : Box :=
  {| clientWidth := Fin (m_clientWidth m);  clientHeight := Fin (m_clientHeight m);
     offsetLeft := Fin (m_offsetLeft m);    offsetTop := Fin (m_offsetTop m);
     paddingLeft := Fin (m_paddingLeft m);  paddingRight := Fin (m_paddingRight m);
     paddingTop := Fin (m_paddingTop m);    paddingBottom := Fin (m_paddingBottom m);
     marginLeft := Fin (m_marginLeft m);    marginRight := Fin (m_marginRight m);
     marginTop := Fin (m_marginTop m);      marginBottom := Fin (m_marginBottom m);
     borderLeftWidth := Fin (m_borderLeftWidth m);
     borderRightWidth := Fin (m_borderRightWidth m);
     borderTopWidth := Fin (m_borderTopWidth m);
     borderBottomWidth := Fin (m_borderBottomWidth m) |}.

(** One half, the offset of [Math.round]. *)
Definition qhalf : Qc := Q2Qc (1 # 2).

(** Sum of a list of rationals. *)
Definition qsum (l : list Qc) : Qc := fold_right Qcplus 0%Qc l.

(** The world after [this.props.onMouseDown( e )], the first thing
    [handleDragStart] does. *)
Definition afterMouseDown {Host : Type} (props : DraggableCoreProps Host)
    (e : MouseTouchEvent) (w : World Host) : World Host :=
  DraggableCore.with_host (onMouseDown props e (host w))
    (DraggableCore.with_call (CallMouseDown e) w).

(** The bounds [{left: 0, right: 100}]. *)
Definition bounds_0_100 : Bounds :=
  {| left := Some (Num.of_Z 0); top := None;
     right := Some (Num.of_Z 100); bottom := None |}.

(* ================================================================== *)
(** ** Concrete trackers and events *)

Module Scenario.

Definition body : OffsetEl :=
  {| el_isBody := true;
     el_scrollLeft := Num.zero; el_scrollTop := Num.zero;
     el_rectLeft := Num.zero; el_rectTop := Num.zero |}.

Definition box : Box :=
  {| clientWidth := Num.of_Z 50;  clientHeight := Num.of_Z 50;
     offsetLeft := Num.zero;   offsetTop := Num.zero;
     paddingLeft := Num.zero;  paddingRight := Num.zero;
     paddingTop := Num.zero;   paddingBottom := Num.zero;
     marginLeft := Num.zero;   marginRight := Num.zero;
     marginTop := Num.zero;    marginBottom := Num.zero;
     borderLeftWidth := Num.zero;  borderRightWidth := Num.zero;
     borderTopWidth := Num.zero;   borderBottomWidth := Num.zero |}.

(** A node whose offset parent is the body of an unscrolled document. *)
Definition theNode : DomNode :=
  {| node_id := 1%nat; node_offsetParent := None; node_body := Some body;
     node_box := box; node_parent := None |}.

Definition dom : Dom :=
  {| dom_node := Some theNode;
     dom_matches := fun _ _ => false;
     dom_querySelector := fun _ => None |}.

(** A callback that always returns [v], on a host without state. *)
Definition always (v : RetVal) : DraggableEventHandler unit :=
  fun _ _ h => (Ok v, h).

(** The default props, with a grid and the values the move and stop
    callbacks return. *)
Definition props (g : option (num * num)) (onDragReturns onStopReturns : RetVal)
  : DraggableCoreProps unit :=
  {| allowAnyClick := false; disabled := false; enableUserSelectHack := true;
     onStart := always RetVoid;
     onDrag := always onDragReturns;
     onStop := always onStopReturns;
     onMouseDown := fun _ h => h;
     scale := Num.of_Z 1;
     cancel := None; offsetParent := None; grid := g; handle := None |}.

Definition grid10 : option (num * num) := Some (Num.of_Z 10, Num.of_Z 10).

(** Props whose start callback returns [false]. *)
Definition vetoStart : DraggableCoreProps unit :=
  {| allowAnyClick := false; disabled := false; enableUserSelectHack := true;
     onStart := always RetFalse;
     onDrag := always RetVoid;
     onStop := always RetVoid;
     onMouseDown := fun _ h => h;
     scale := Num.of_Z 1;
     cancel := None; offsetParent := None; grid := None; handle := None |}.

Definition mouseEvent (type : string) (cx cy : Z) : MouseTouchEvent :=
  {| e_type := type; e_button := Some 0%Z; e_target := Some (1%nat, []);
     e_targetTouches := None; e_changedTouches := None;
     e_clientX := Num.of_Z cx; e_clientY := Num.of_Z cy |}.

Definition touchEvent (type : string) (targetTouches changedTouches : list Touch)
  : MouseTouchEvent :=
  {| e_type := type; e_button := None; e_target := Some (1%nat, []);
     e_targetTouches := Some targetTouches; e_changedTouches := Some changedTouches;
     e_clientX := NaN; e_clientY := NaN |}.

Definition finger (id cx cy : Z) : Touch :=
  {| identifier := id; touch_clientX := Num.of_Z cx; touch_clientY := Num.of_Z cy |}.

Definition run {Host A : Type} (m : M Host A) (w : World Host) : World Host :=
  snd (m w).

(** The tracker after construction and mount. *)
Definition idle : World unit :=
  run (DraggableCore.componentDidMount dom) (DraggableCore.construct tt).

(** A mouse session opened at (0,0). *)
Definition opened (p : DraggableCoreProps unit) : World unit :=
  run (DraggableCore.onMouseDown p dom (mouseEvent "mousedown" 0 0)) idle.

(** A touch session of finger 7, opened at (0,0). *)
Definition touched (p : DraggableCoreProps unit) : World unit :=
  run (DraggableCore.onTouchStart p dom (touchEvent "touchstart" [finger 7 0 0] [finger 7 0 0]))
      idle.

(** *** Grid: two moves of (3,3) each *)

Definition gridProps : DraggableCoreProps unit := props grid10 RetVoid RetVoid.

Definition afterFirstStep : World unit :=
  run (DraggableCore.dispatchEvent gridProps dom OnDocument (mouseEvent "mousemove" 3 3))
      (opened gridProps).

Definition afterSecondStep : World unit :=
  run (DraggableCore.dispatchEvent gridProps dom OnDocument (mouseEvent "mousemove" 6 6))
      afterFirstStep.

(** *** A move veto whose forced stop is vetoed as well *)

Definition vetoBoth : DraggableCoreProps unit := props None RetFalse RetFalse.

Definition afterVetoedMove : World unit :=
  run (DraggableCore.dispatchEvent vetoBoth dom OnDocument (mouseEvent "mousemove" 3 3))
      (opened vetoBoth).

(** *** A session whose stop arrives away from the last move *)

Definition plainProps : DraggableCoreProps unit := props None RetVoid RetVoid.

Definition afterSession : World unit :=
  run (session plainProps dom (mouseEvent "mousedown" 0 0)
         [mouseEvent "mousemove" 10 0] (mouseEvent "mouseup" 15 0)) idle.

(** *** A mouse session that a touchend on the element closes *)

Definition afterTouchEnd : World unit :=
  run (DraggableCore.onTouchEnd plainProps dom (touchEvent "touchend" [] [finger 7 0 0]))
      (opened plainProps).

Definition afterStrayMove : World unit :=
  run (DraggableCore.dispatchEvent plainProps dom OnDocument (mouseEvent "mousemove" 5 7))
      afterTouchEnd.

(** *** The reconciler, with a user who vetoes every move *)

Definition userAlways (v : RetVal) : DraggableEventHandler unit :=
  fun _ _ u => (Ok v, u).

Definition draggableProps (b : BoundsProp) (onDragReturns : RetVal)
  : DraggableProps unit :=
  {| coreProps := props None onDragReturns RetVoid;
     axis := AxisBoth;
     bounds := b;
     defaultPosition := {| cp_x := Num.zero; cp_y := Num.zero |};
     position := None |}.

Definition vetoingUser : DraggableProps unit := draggableProps BoundsFalse RetFalse.

Definition reconciler (dp : DraggableProps unit) : Reconciler unit :=
  {| dstate := Draggable.constructorState dp; user := tt; userCalls := [] |}.

Definition mountedReconciler (dp : DraggableProps unit) : World (Reconciler unit) :=
  run (DraggableCore.componentDidMount dom) (DraggableCore.construct (reconciler dp)).

Definition draggableOpened (dp : DraggableProps unit) : World (Reconciler unit) :=
  run (DraggableCore.onMouseDown (Draggable.renderCoreProps dp dom) dom
         (mouseEvent "mousedown" 0 0)) (mountedReconciler dp).

Definition afterUserVeto : World (Reconciler unit) :=
  run (DraggableCore.dispatchEvent (Draggable.renderCoreProps vetoingUser dom) dom
         OnDocument (mouseEvent "mousemove" 3 3))
      (draggableOpened vetoingUser).

(** *** The reconciler with bounds [{left: 0, right: 100}] *)

Definition boundedProps : DraggableProps unit :=
  draggableProps (BoundsRect bounds_0_100) RetVoid.

(** A reconciler that is dragging, at [x] with slack [s]. *)
Definition draggingAt (px s : Z) : Reconciler unit :=
  {| dstate :=
       {| ds_dragging := true; ds_dragged := true;
          ds_x := Num.of_Z px; ds_y := Num.zero;
          prevPropsPosition := {| cp_x := Num.zero; cp_y := Num.zero |};
          slackX := Num.of_Z s; slackY := Num.zero;
          isElementSVG := false |};
     user := tt; userCalls := [] |}.

(** The record of a tracker sample that moved by [dx] along x. *)
Definition coreMove (dx : Z) : DraggableData :=
  {| node := 1%nat;
     x := Num.of_Z dx; y := Num.zero;
     deltaX := Num.of_Z dx; deltaY := Num.zero;
     lastX := Num.zero; lastY := Num.zero |}.

End Scenario.

(** ** Further trackers, documents and props *)

Module Cases.

(** An offset parent that is not the body: scrolled by 5, at (20,30) in the
    viewport. *)
Definition panel : OffsetEl :=
  {| el_isBody := false;
     el_scrollLeft := Num.of_Z 5; el_scrollTop := Num.zero;
     el_rectLeft := Num.of_Z 20; el_rectTop := Num.of_Z 30 |}.

(** A document whose tracker node is gone. *)
Definition unmounted : Dom :=
  {| dom_node := None;
     dom_matches := fun _ _ => false;
     dom_querySelector := fun _ => None |}.

(** A document in which node 2 is the only one matching [.handle]. *)
Definition withHandle : Dom :=
  {| dom_node := Some Scenario.theNode;
     dom_matches := fun n s => Nat.eqb n 2 && String.eqb s ".handle";
     dom_querySelector := fun _ => None |}.

(** A press of the right mouse button. *)
Definition rightClick : MouseTouchEvent :=
  {| e_type := "mousedown"; e_button := Some 2%Z; e_target := Some (1%nat, []);
     e_targetTouches := None; e_changedTouches := None;
     e_clientX := Num.zero; e_clientY := Num.zero |}.

Definition zeroGrid : DraggableCoreProps unit :=
  Scenario.props (Some (Num.zero, Num.zero)) RetVoid RetVoid.

(** A user who supplies [position = {x: 10, y: 20}]. *)
Definition controlled : DraggableProps unit :=
  {| coreProps := Scenario.plainProps;
     axis := AxisBoth;
     bounds := BoundsFalse;
     defaultPosition := {| cp_x := Num.zero; cp_y := Num.zero |};
     position := Some {| cp_x := Num.of_Z 10; cp_y := Num.of_Z 20 |} |}.

(** A user whose start callback returns [false]. *)
Definition vetoingStart : DraggableProps unit :=
  {| coreProps := Scenario.vetoStart;
     axis := AxisBoth;
     bounds := BoundsFalse;
     defaultPosition := {| cp_x := Num.zero; cp_y := Num.zero |};
     position := None |}.

Definition free : DraggableProps unit := Scenario.draggableProps BoundsFalse RetVoid.

End Cases.

(* ================================================================== *)
(** ** Facts about numbers *)

(** [Num.eqb] decides equality. *)
Lemma num_eqb_eq (a b : num) : Num.eqb a b = true -> a = b.
Proof.
  destruct a as [|p], b as [|q]; simpl; try discriminate; auto.
  intros H. apply Qc_eq_bool_correct in H. now subst.
Qed.

Lemma Qcleb_le (a b : Qc) : Qcleb a b = true <-> (a <= b)%Qc.
Proof. unfold Qcleb, Qcle. apply Qle_bool_iff. Qed.

Lemma Qcleb_gt (a b : Qc) : Qcleb a b = false <-> (b < a)%Qc.
Proof.
  split; intros H.
  - apply Qcnot_le_lt. intros Hle. apply Qcleb_le in Hle. congruence.
  - destruct (Qcleb a b) eqn:E; [|reflexivity].
    apply Qcleb_le in E. exfalso. now apply (Qcle_not_lt a b).
Qed.

(** With an upper limit below the lower limit, the lower limit wins. *)
Lemma max_min_inverted (x l r : Qc) :
  (r < l)%Qc -> Num.max (Num.min (Fin x) (Fin r)) (Fin l) = Fin l.
Proof.
  intros Hlr. simpl. f_equal.
  destruct (Qcleb x r) eqn:E1.
  - apply Qcleb_le in E1.
    assert (Hxl : (x <= l)%Qc).
    { apply Qcle_trans with r; [assumption | now apply Qclt_le_weak]. }
    apply Qcleb_le in Hxl. now rewrite Hxl.
  - assert (Hrl : (r <= l)%Qc) by now apply Qclt_le_weak.
    apply Qcleb_le in Hrl. now rewrite Hrl.
Qed.

(** [Math.round] gives zero exactly on [-1/2, 1/2). *)
Lemma Qcround_zero_iff (q : Qc) :
  Qcround q = 0%Z <-> (- (1 # 2) <= q /\ q < 1 # 2)%Q.
Proof.
  unfold Qcround. split.
  - intros H. pose proof (Qfloor_le (q + (1#2))) as H1.
    pose proof (Qlt_floor (q + (1#2))) as H2. rewrite H in H1, H2.
    change (inject_Z 0) with 0%Q in H1. change (inject_Z (0 + 1)) with 1%Q in H2.
    split; lra.
  - intros [H1 H2].
    assert (Hlo : (0 <= Qfloor (q + (1#2)))%Z).
    { rewrite <- (Qfloor_Z 0). apply Qfloor_resp_le.
      change (inject_Z 0) with 0%Q. lra. }
    assert (Hhi : (Qfloor (q + (1#2)) < 1)%Z).
    { pose proof (Qfloor_le (q + (1#2))) as H3.
      rewrite Zlt_Qlt. change (inject_Z 1) with 1%Q. lra. }
    lia.
Qed.

Lemma this_div (a b : Qc) : (this (a / b)%Qc == this a / this b)%Q.
Proof.
  change (this (a / b)%Qc) with (Qred (this a * Qred (/ this b))).
  rewrite !Qred_correct. reflexivity.
Qed.

Lemma this_qz (z : Z) : (this (qz z) == inject_Z z)%Q.
Proof. change (this (qz z)) with (Qred (inject_Z z)). apply Qred_correct. Qed.

(** Rounding a tenth: zero exactly on [-5, 5). *)
Lemma Qcround_tenth_zero_iff (d : Qc) :
  Qcround (d / qz 10)%Qc = 0%Z <-> (qz (-5) <= d /\ d < qz 5)%Qc.
Proof.
  rewrite Qcround_zero_iff. unfold Qcle, Qclt.
  rewrite this_div, !this_qz.
  assert (E : (inject_Z 10 == 10 # 1)%Q) by reflexivity.
  assert (E5 : (inject_Z 5 == 5 # 1)%Q) by reflexivity.
  assert (E5' : (inject_Z (-5) == -5 # 1)%Q) by reflexivity.
  rewrite E, E5, E5'.
  unfold Qdiv. change (/ (10 # 1))%Q with (1 # 10)%Q.
  split; intros [H1 H2]; split; lra.
Qed.

Lemma Fin_inj (a b : Qc) : Fin a = Fin b -> a = b.
Proof.
  intros H.
  exact (f_equal (fun n => match n with Fin q => q | NaN => a end) H).
Qed.

Lemma qz_inj (a b : Z) : qz a = qz b -> a = b.
Proof.
  unfold qz. intros H. apply Q2Qc_eq_iff in H.
  unfold Qeq in H. simpl in H. lia.
Qed.

Lemma snapped_falsy (k : Z) :
  Num.truthy (Fin (qz k * qz 10)%Qc) = negb (k =? 0)%Z.
Proof.
  simpl. f_equal. destruct (Z.eqb_spec k 0) as [->|Hk].
  - reflexivity.
  - destruct (Qc_eq_bool (qz k * qz 10) 0) eqn:E; [|reflexivity].
    apply Qc_eq_bool_correct in E. apply Qcmult_integral in E.
    destruct E as [E|E].
    + apply (@qz_inj k 0) in E. contradiction.
    + apply (@qz_inj 10 0) in E. discriminate.
Qed.

(** Sums of deltas. *)

Lemma add_zero_l (n : num) : Num.add Num.zero n = n.
Proof.
  destruct n as [|q]; [reflexivity|]. unfold Num.zero, Num.of_Z.
  cbn [Num.add]. f_equal. apply Qcplus_0_l.
Qed.

Lemma add_zero_r (n : num) : Num.add n Num.zero = n.
Proof.
  destruct n as [|q]; [reflexivity|]. unfold Num.zero, Num.of_Z.
  cbn [Num.add]. f_equal. apply Qcplus_0_r.
Qed.

Lemma add_assoc (a b c : num) : Num.add a (Num.add b c) = Num.add (Num.add a b) c.
Proof. destruct a, b, c; cbn [Num.add]; try reflexivity. f_equal. ring. Qed.

Lemma sum_cons (a : num) (l : list num) : Num.sum (a :: l) = Num.add a (Num.sum l).
Proof. reflexivity. Qed.

Lemma sum_one (a : num) : Num.sum [a] = a.
Proof. unfold Num.sum. cbn [fold_right]. apply add_zero_r. Qed.

Lemma sum_app (l1 l2 : list num) :
  Num.sum (l1 ++ l2) = Num.add (Num.sum l1) (Num.sum l2).
Proof.
  unfold Num.sum. induction l1 as [|a l1 IH]; cbn [app fold_right].
  - now rewrite add_zero_l.
  - now rewrite IH, add_assoc.
Qed.

Lemma last_cons {A} (ps : list A) (p l : A) : last (p :: ps) l = last ps p.
Proof.
  revert p l. induction ps as [|a ps IH]; intros p l; [reflexivity|].
  change (last (p :: a :: ps) l) with (last (a :: ps) l).
  now rewrite (IH a l), (IH a p).
Qed.

Lemma dragRecords_sum (nid : NodeId) (ps : list (Qc * Qc)) (l : Qc * Qc) :
  Num.sum (map deltaX (dragRecords nid l ps)) = Fin (fst (last ps l) - fst l)
  /\ Num.sum (map deltaY (dragRecords nid l ps)) = Fin (snd (last ps l) - snd l).
Proof.
  revert l. induction ps as [|p ps IH]; intros l.
  - cbn [dragRecords map last]. unfold Num.sum, Num.zero, Num.of_Z. cbn [fold_right].
    change (qz 0) with (Q2Qc 0). split; f_equal; ring.
  - cbn [dragRecords map]. unfold Num.sum in *. cbn [fold_right].
    destruct (IH p) as [IHx IHy]. rewrite IHx, IHy.
    rewrite last_cons.
    cbn [sampleAfter deltaX deltaY Num.add]. split; f_equal; ring.
Qed.
(* ================================================================== *)
(** ** Touch identifiers *)

Section TouchIsolation.
Variable Host : Type.
Variable props : DraggableCoreProps Host.
Variable dom : Dom.

(** A touch that is in neither list is not found. *)
Lemma getTouch_absent (e : MouseTouchEvent) (t : Z) :
  (forall ts tch, e_targetTouches e = Some ts -> In tch ts -> identifier tch <> t) ->
  (forall ts tch, e_changedTouches e = Some ts -> In tch ts -> identifier tch <> t) ->
  getTouch e t = None.
Proof.
  intros Ht Hc. unfold getTouch, findInArray.
  assert (Hfind : forall ts, (forall tch, In tch ts -> identifier tch <> t) ->
                             find (fun tch => (t =? identifier tch)%Z) ts = None).
  { intros ts Hts. destruct (find _ ts) as [tch|] eqn:E; [|reflexivity].
    apply find_some in E. destruct E as [Hin Heq].
    apply Z.eqb_eq in Heq. exfalso. apply (Hts tch Hin). now symmetry. }
  destruct (e_targetTouches e) as [ts|] eqn:Et.
  - rewrite Hfind by (intros tch; apply (Ht ts tch eq_refl)).
    destruct (e_changedTouches e) as [cs|] eqn:Ec; [|reflexivity].
    apply Hfind. intros tch. apply (Hc cs tch eq_refl).
  - destruct (e_changedTouches e) as [cs|] eqn:Ec; [|reflexivity].
    apply Hfind. intros tch. apply (Hc cs tch eq_refl).
Qed.

(** C7.  In a session that tracks the touch identifier [t], a move or stop
    event whose target and changed touch lists hold no touch with
    identifier [t] is dropped: [handleDrag] and [handleDragStop] return
    with the world as it was, so no callback has been invoked and
    lastX/lastY, the dragging flag, the listeners and the state of the
    host (the visible position, when the host is the reconciler) are
    unchanged. *)
Theorem wrong_touch_dropped (w : World Host) (e : MouseTouchEvent) (t : Z) :
  touchIdentifier (state w) = TidNum t ->
  (forall ts tch, e_targetTouches e = Some ts -> In tch ts -> identifier tch <> t) ->
  (forall ts tch, e_changedTouches e = Some ts -> In tch ts -> identifier tch <> t) ->
  DraggableCore.handleDrag props dom e w = (Ok tt, w)
  /\ DraggableCore.handleDragStop props dom e w = (Ok RetVoid, w).
Proof.
  intros Htid Ht Hc. pose proof (getTouch_absent e Ht Hc) as Hg.
  unfold DraggableCore.handleDrag, DraggableCore.handleDragStop, bind, gets, lift.
  unfold DraggableCore.getControlPosition. rewrite Htid, Hg.
  split; [reflexivity|].
  destruct (dragging (state w)); reflexivity.
Qed.
End TouchIsolation.

(** C10.  On a mounted node, [getBoundPosition] returns the position as it
    is when no bounds are configured; with numeric bounds it takes the
    minimum with right/bottom first and the maximum with left/top second;
    so with left > right every number x is mapped to left, and with
    top > bottom every number y is mapped to top. *)
Theorem bounds_lower_limit_wins (dom : Dom) (nd : DomNode) :
  dom_node dom = Some nd ->
  (forall x y, getBoundPosition dom BoundsFalse x y = Ok (x, y))
  /\ (forall l t r b x y,
        getBoundPosition dom
          (BoundsRect {| left := Some (Fin l); top := Some (Fin t);
                         right := Some (Fin r); bottom := Some (Fin b) |}) x y
        = Ok (Num.max (Num.min x (Fin r)) (Fin l),
              Num.max (Num.min y (Fin b)) (Fin t)))
  /\ (forall bnds l r x y,
        left bnds = Some (Fin l) -> right bnds = Some (Fin r) -> (r < l)%Qc ->
        exists y', getBoundPosition dom (BoundsRect bnds) (Fin x) y = Ok (Fin l, y'))
  /\ (forall bnds t b x y,
        top bnds = Some (Fin t) -> bottom bnds = Some (Fin b) -> (b < t)%Qc ->
        exists x', getBoundPosition dom (BoundsRect bnds) x (Fin y) = Ok (x', Fin t)).
Proof.
  intros Hnode. repeat split.
  - intros l t r b x y. unfold getBoundPosition, findDOMNode. rewrite Hnode.
    reflexivity.
  - intros bnds l r x y Hl Hr Hlt.
    unfold getBoundPosition, findDOMNode. rewrite Hnode. cbn [bounds_truthy negb].
    unfold clampToBounds, cloneBounds. cbn [left right top bottom].
    rewrite Hl, Hr. cbn [isNum unwrap].
    rewrite (max_min_inverted x Hlt). eexists. reflexivity.
  - intros bnds t b x y Ht Hb Hlt.
    unfold getBoundPosition, findDOMNode. rewrite Hnode. cbn [bounds_truthy negb].
    unfold clampToBounds, cloneBounds. cbn [left right top bottom].
    rewrite Ht, Hb. cbn [isNum unwrap].
    rewrite (max_min_inverted y Hlt). eexists. reflexivity.
Qed.

(* ================================================================== *)
(** ** The tracker *)

Section TrackerFacts.
Variable Host : Type.
Variable props : DraggableCoreProps Host.
Variable dom : Dom.

(** A position is only resolved on a mounted node. *)
Lemma resolved_position_mounted (e : MouseTouchEvent) (tid : TouchId) (p : ControlPosition) :
  DraggableCore.getControlPosition props dom e tid = Ok (Some p) ->
  exists nd, dom_node dom = Some nd.
Proof.
  unfold DraggableCore.getControlPosition, findDOMNode.
  destruct (dom_node dom) as [nd|].
  - intros _. now exists nd.
  - destruct tid as [| |n]; try discriminate.
    destruct (getTouch e n); discriminate.
Qed.

Lemma createCoreData_mounted (nd : DomNode) (st : DraggableCoreState) (px py : num) :
  dom_node dom = Some nd ->
  exists d, DraggableCore.createCoreData dom st px py = Ok d
            /\ x d = px /\ y d = py.
Proof.
  intros Hn. unfold DraggableCore.createCoreData, findDOMNode. rewrite Hn.
  destruct (negb (isNum (Some (st_lastX st)))); eexists; split; reflexivity || (split; reflexivity).
Qed.

(** C9.  A drag-start that passes the guards of [handleDragStart] and whose
    start callback returns [false] has already stored the touch identifier
    of the event: afterwards [touchIdentifier] is the identifier
    [getTouchIdentifier] resolves for the event, while dragging, lastX and
    lastY, the listeners and the selection guard are as before. *)
Theorem vetoed_start_keeps_touch_identifier
    (w : World Host) (e : MouseTouchEvent) (nd : DomNode) (p : ControlPosition) :
  DraggableCore.notLeftClick props e = false ->
  DraggableCore.mountedNode dom = Some nd ->
  DraggableCore.shortCircuits props dom e nd = false ->
  DraggableCore.getControlPosition props dom e (getTouchIdentifier e) = Ok (Some p) ->
  (forall d h, fst (onStart props e d h) = Ok RetFalse) ->
  exists w',
    DraggableCore.handleDragStart props dom e w = (Ok RetVoid, w')
    /\ touchIdentifier (state w') = getTouchIdentifier e
    /\ dragging (state w') = dragging (state w)
    /\ st_lastX (state w') = st_lastX (state w)
    /\ st_lastY (state w') = st_lastY (state w)
    /\ listeners w' = listeners w
    /\ selectGuard w' = selectGuard w.
Proof.
  intros Hbtn Hnode Hsc Hpos Hveto.
  destruct (resolved_position_mounted _ _ Hpos) as [nd' Hnd'].
  unfold DraggableCore.handleDragStart, bind, DraggableCore.invokeMouseDown, modify.
  rewrite Hbtn, Hnode, Hsc.
  unfold DraggableCore.setState, modify, lift. rewrite Hpos.
  unfold gets.
  match goal with
  | |- context [DraggableCore.createCoreData dom ?st ?a ?b] =>
    destruct (@createCoreData_mounted nd' st a b Hnd') as (d & Hd & _ & _);
    rewrite Hd
  end.
  unfold DraggableCore.invoke.
  match goal with
  | |- context [onStart props e d ?h] =>
    pose proof (Hveto d h) as Hv; destruct (onStart props e d h) as [v h'] eqn:Ecb
  end.
  simpl in Hv. subst v. cbn [is_false orb].
  eexists. split; [reflexivity|]. repeat split.
Qed.

Lemma Registration_eqb_eq (a b : Registration) :
  Registration_eqb a b = true <-> a = b.
Proof.
  unfold Registration_eqb. destruct a as [ta ea ha], b as [tb eb hb]; simpl.
  rewrite !andb_true_iff, String.eqb_eq. split.
  - intros [[Ht He] Hh]. subst.
    destruct ta, tb; try discriminate; destruct ha, hb; try discriminate; reflexivity.
  - intros H. injection H as -> -> ->.
    destruct tb, hb; auto.
Qed.

Lemma unregister_not_In (r : Registration) (l : list Registration) :
  ~ In r (unregister r l).
Proof.
  unfold unregister. intros H. apply filter_In in H. destruct H as [_ H].
  assert (E : Registration_eqb r r = true) by now apply Registration_eqb_eq.
  rewrite E in H. discriminate.
Qed.

Lemma unregister_In (r r' : Registration) (l : list Registration) :
  In r' (unregister r l) -> In r' l /\ r' <> r.
Proof.
  unfold unregister. intros H. apply filter_In in H. destruct H as [Hin H].
  split; [assumption|]. intros ->.
  assert (E : Registration_eqb r r = true) by now apply Registration_eqb_eq.
  rewrite E in H. discriminate.
Qed.

(** [handleDragStop] on an open session, once the position is resolved. *)
Lemma handleDragStop_run (w : World Host) (e : MouseTouchEvent)
    (p : ControlPosition) (d : DraggableData) :
  dragging (state w) = true ->
  DraggableCore.getControlPosition props dom e (touchIdentifier (state w)) = Ok (Some p) ->
  DraggableCore.createCoreData dom (state w)
    (fst (DraggableCore.snapStop props (state w) (cp_x p) (cp_y p)))
    (snd (DraggableCore.snapStop props (state w) (cp_x p) (cp_y p))) = Ok d ->
  DraggableCore.handleDragStop props dom e w =
    let w1 := DraggableCore.with_call (CallStop e d) w in
    match onStop props e d (host w) with
    | (Throw msg, h) => (Throw msg, DraggableCore.with_host h w1)
    | (Ok v, h) =>
      if is_false v || negb (mounted w)
      then (Ok RetFalse, DraggableCore.with_host h w1)
      else (Ok RetVoid, closeSession props (DraggableCore.with_host h w1))
    end.
Proof.
  intros Hdrag Hpos Hd.
  destruct (resolved_position_mounted _ _ Hpos) as [nd Hnd].
  unfold DraggableCore.handleDragStop, bind, gets, lift.
  rewrite Hdrag, Hpos. cbn [negb].
  destruct (DraggableCore.snapStop props (state w) (cp_x p) (cp_y p)) as [sx sy].
  cbn [fst snd] in Hd. rewrite Hd.
  unfold DraggableCore.invoke. cbn [host DraggableCore.with_call].
  destruct (onStop props e d (host w)) as [[v|msg] h]; [|reflexivity].
  cbn [mounted DraggableCore.with_host DraggableCore.with_call].
  destruct (is_false v || negb (mounted w)); [reflexivity|].
  rewrite Hnd. unfold closeSession, when.
  destruct (enableUserSelectHack props); reflexivity.
Qed.

(** What closing a session changes, and what it leaves. *)
Lemma closeSession_spec (w : World Host) :
  let w' := closeSession props w in
  dragging (state w') = false
  /\ st_lastX (state w') = NaN
  /\ st_lastY (state w') = NaN
  /\ touchIdentifier (state w') = touchIdentifier (state w)
  /\ (enableUserSelectHack props = true -> selectGuard w' = false)
  /\ ~ In (moveRegistration (dragEventFor w)) (listeners w')
  /\ ~ In (stopRegistration (dragEventFor w)) (listeners w')
  /\ (sessionListeners w ->
      forall r, In r (listeners w') -> onDocument r = false)
  /\ host w' = host w /\ calls w' = calls w /\ mounted w' = mounted w.
Proof.
  unfold closeSession. cbn zeta.
  destruct (enableUserSelectHack props) eqn:Eh; cbn.
  all: repeat split; try reflexivity; try discriminate.
  all: try (intros Hin; apply unregister_In in Hin; destruct Hin as [Hin _];
            now apply unregister_not_In in Hin).
  all: try apply unregister_not_In.
  all: intros Hs r Hin; apply unregister_In in Hin; destruct Hin as [Hin Hne1];
       apply unregister_In in Hin; destruct Hin as [Hin Hne2];
       destruct (onDocument r) eqn:Er; [|reflexivity];
       destruct (Hs r Hin Er); contradiction.
Qed.


(** [handleDrag], once the position is resolved and the move is not skipped. *)
Lemma handleDrag_run (w : World Host) (e : MouseTouchEvent)
    (p : ControlPosition) (q : num * num) (d : DraggableData) :
  DraggableCore.getControlPosition props dom e (touchIdentifier (state w)) = Ok (Some p) ->
  DraggableCore.snapDrag props (state w) (cp_x p) (cp_y p) = Some q ->
  DraggableCore.createCoreData dom (state w) (fst q) (snd q) = Ok d ->
  DraggableCore.handleDrag props dom e w =
    let w1 := DraggableCore.with_call (CallDrag e d) w in
    match onDrag props e d (host w) with
    | (Throw msg, h) => (Throw msg, DraggableCore.with_host h w1)
    | (Ok v, h) =>
      let w2 := DraggableCore.with_host h w1 in
      if is_false v || negb (mounted w)
      then
        match DraggableCore.try_catch
                (DraggableCore.handleDragStop props dom (DraggableCore.syntheticMouseUp))
                (DraggableCore.handleDragStop props dom (DraggableCore.legacyMouseUp)) w2 with
        | (Ok _, w3) => (Ok tt, w3)
        | (Throw msg, w3) => (Throw msg, w3)
        end
      else (Ok tt, DraggableCore.with_state (DraggableCore.setLast (fst q) (snd q)) w2)
    end.
Proof.
  intros Hpos Hsnap Hd.
  unfold DraggableCore.handleDrag, bind, gets, lift.
  rewrite Hpos, Hsnap. destruct q as [qx qy]. cbn [fst snd] in Hd. rewrite Hd.
  unfold DraggableCore.invoke. cbn [host DraggableCore.with_call].
  destruct (onDrag props e d (host w)) as [[v|msg] h]; [|reflexivity].
  cbn [mounted DraggableCore.with_host DraggableCore.with_call].
  destruct (is_false v || negb (mounted w)); reflexivity.
Qed.

(** Without a tracked touch, whether a position resolves does not depend
    on the event. *)
Lemma mouse_position_resolves (e e' : MouseTouchEvent) (tid : TouchId)
    (p : ControlPosition) :
  (forall n, tid <> TidNum n) ->
  DraggableCore.getControlPosition props dom e tid = Ok (Some p) ->
  exists p', DraggableCore.getControlPosition props dom e' tid = Ok (Some p').
Proof.
  intros Htid. unfold DraggableCore.getControlPosition.
  destruct tid as [| |n]; [| |now destruct (Htid n)].
  all: destruct (findDOMNode dom) as [nd|]; [|discriminate].
  all: destruct (offsetParent props) as [op|];
       [|destruct (node_offsetParent nd) as [op|];
         [|destruct (node_body nd) as [op|]; [|discriminate]]].
  all: intros _; eexists; reflexivity.
Qed.


(** The grid block of [handleDrag] for the grid [10,10]. *)
Lemma snapDrag_ten (st : DraggableCoreState) (lx ly dx dy : Qc) :
  grid props = Some (Num.of_Z 10, Num.of_Z 10) ->
  st_lastX st = Fin lx -> st_lastY st = Fin ly ->
  DraggableCore.snapDrag props st (Fin (lx + dx)) (Fin (ly + dy)) =
    let kx := Qcround (dx / qz 10)%Qc in
    let ky := Qcround (dy / qz 10)%Qc in
    if ((kx =? 0) && (ky =? 0))%Z then None
    else Some (Fin (lx + qz kx * qz 10), Fin (ly + qz ky * qz 10)).
Proof.
  intros Hg Hx Hy. unfold DraggableCore.snapDrag. rewrite Hg, Hx, Hy.
  cbn [Num.sub]. replace (lx + dx - lx)%Qc with dx by ring.
  replace (ly + dy - ly)%Qc with dy by ring.
  unfold snapToGrid. cbn [fst snd Num.of_Z Num.div].
  change (Qc_eq_bool (qz 10) 0) with false. cbn [Num.round Num.of_Z Num.mul].
  rewrite !snapped_falsy, !negb_involutive. cbn zeta.
  destruct ((Qcround (dx / qz 10) =? 0)%Z && (Qcround (dy / qz 10) =? 0)%Z);
    reflexivity.
Qed.

(** The handlers only add to the list of calls. *)
Lemma handleDragStop_calls (e : MouseTouchEvent) (w : World Host) :
  exists rest, calls (snd (DraggableCore.handleDragStop props dom e w)) = calls w ++ rest.
Proof.
  unfold DraggableCore.handleDragStop, bind, gets, lift.
  destruct (dragging (state w)); cbn [negb]; [|exists []; now rewrite app_nil_r].
  destruct (DraggableCore.getControlPosition props dom e (touchIdentifier (state w)))
    as [[p|]|msg]; try (exists []; now rewrite app_nil_r).
  destruct (DraggableCore.snapStop props (state w) (cp_x p) (cp_y p)) as [sx sy].
  destruct (DraggableCore.createCoreData dom (state w) sx sy) as [d|msg];
    [|exists []; now rewrite app_nil_r].
  unfold DraggableCore.invoke. cbn [host DraggableCore.with_call].
  exists [CallStop e d].
  destruct (onStop props e d (host w)) as [[v|msg] h]; [|reflexivity].
  cbn [mounted DraggableCore.with_host DraggableCore.with_call].
  destruct (is_false v || negb (mounted w)); [reflexivity|].
  unfold when. destruct (dom_node dom); destruct (enableUserSelectHack props); reflexivity.
Qed.

Lemma forceStop_calls (w : World Host) :
  exists rest,
    calls (snd (DraggableCore.try_catch
                  (DraggableCore.handleDragStop props dom DraggableCore.syntheticMouseUp)
                  (DraggableCore.handleDragStop props dom DraggableCore.legacyMouseUp) w))
    = calls w ++ rest.
Proof.
  unfold DraggableCore.try_catch.
  destruct (handleDragStop_calls DraggableCore.syntheticMouseUp w) as [r1 H1].
  destruct (DraggableCore.handleDragStop props dom DraggableCore.syntheticMouseUp w)
    as [[v|msg] w1]; cbn [snd] in *.
  - now exists r1.
  - destruct (handleDragStop_calls DraggableCore.legacyMouseUp w1) as [r2 H2].
    exists (r1 ++ r2). rewrite H2, H1. now rewrite app_assoc.
Qed.


Lemma createCoreData_after (nd : DomNode) (st : DraggableCoreState) (l p : Qc * Qc) :
  dom_node dom = Some nd ->
  st_lastX st = Fin (fst l) -> st_lastY st = Fin (snd l) ->
  DraggableCore.createCoreData dom st (Fin (fst p)) (Fin (snd p))
  = Ok (sampleAfter (node_id nd) l p).
Proof.
  intros Hnd Hx Hy. unfold DraggableCore.createCoreData, findDOMNode.
  rewrite Hnd, Hx, Hy. reflexivity.
Qed.

(** A run of moves without grid and without veto: one record per move,
    each from the position of the one before. *)
Lemma moves_run (tid : TouchId) (nd : DomNode) (es : list MouseTouchEvent)
    (ps : list (Qc * Qc)) :
  dom_node dom = Some nd ->
  grid props = None ->
  (forall e d h, fst (onDrag props e d h) = Ok RetVoid) ->
  Forall2 (fun e p => DraggableCore.getControlPosition props dom e tid
                      = Ok (Some (finitePosition p))) es ps ->
  forall (u : World Host) (l : Qc * Qc),
    mounted u = true ->
    st_lastX (state u) = Fin (fst l) -> st_lastY (state u) = Fin (snd l) ->
    touchIdentifier (state u) = tid ->
    exists u',
      moves props dom es u = (Ok tt, u')
      /\ calls u' = calls u ++ dragCalls es (dragRecords (node_id nd) l ps)
      /\ st_lastX (state u') = Fin (fst (last ps l))
      /\ st_lastY (state u') = Fin (snd (last ps l))
      /\ dragging (state u') = dragging (state u)
      /\ touchIdentifier (state u') = tid
      /\ mounted u' = true.
Proof.
  intros Hnd Hg Hcb HF. induction HF as [|e p es ps Hp HF IH]; intros u l Hm Hx Hy Ht.
  - exists u. cbn. rewrite app_nil_r. now repeat split.
  - cbn [moves]. unfold bind.
    rewrite <- Ht in Hp.
    assert (Hsnap : DraggableCore.snapDrag props (state u)
                      (cp_x (finitePosition p)) (cp_y (finitePosition p))
                    = Some (Fin (fst p), Fin (snd p))).
    { unfold DraggableCore.snapDrag. now rewrite Hg. }
    pose proof (@createCoreData_after nd (state u) l p Hnd Hx Hy) as Hd.
    rewrite (@handleDrag_run u e _ _ _ Hp Hsnap Hd). cbn zeta.
    pose proof (Hcb e (sampleAfter (node_id nd) l p) (host u)) as Hv.
    destruct (onDrag props e (sampleAfter (node_id nd) l p) (host u)) as [v h].
    simpl in Hv. subst v. rewrite Hm. cbn [is_false negb orb fst snd].
    match goal with
    | |- context [moves props dom es ?u1] =>
      destruct (IH u1 p) as (u' & Hrun & Hcalls & Hlx & Hly & Hdr & Htid & Hm');
        [exact Hm | reflexivity | reflexivity | exact Ht |]
    end.
    exists u'. rewrite Hrun. split; [reflexivity|].
    rewrite last_cons. repeat split; try assumption.
    rewrite Hcalls. cbn [calls DraggableCore.with_state DraggableCore.with_host
                           DraggableCore.with_call dragRecords dragCalls combine map fst snd].
    rewrite <- app_assoc. reflexivity.
Qed.

Lemma mountedNode_node (nd : DomNode) :
  DraggableCore.mountedNode dom = Some nd -> dom_node dom = Some nd.
Proof.
  unfold DraggableCore.mountedNode. destruct (dom_node dom) as [n|]; [|discriminate].
  destruct (node_body n); [|discriminate]. now intros [= ->].
Qed.

(** A start that passes the guards and is not vetoed opens the session. *)
Lemma handleDragStart_opens (w : World Host) (e0 : MouseTouchEvent) (nd : DomNode)
    (p0 : Qc * Qc) :
  isNum (Some (st_lastX (state w))) = false ->
  mounted w = true ->
  DraggableCore.notLeftClick props e0 = false ->
  DraggableCore.mountedNode dom = Some nd ->
  DraggableCore.shortCircuits props dom e0 nd = false ->
  DraggableCore.getControlPosition props dom e0 (getTouchIdentifier e0)
    = Ok (Some (finitePosition p0)) ->
  (forall e d h, fst (onStart props e d h) = Ok RetVoid) ->
  exists w1,
    DraggableCore.handleDragStart props dom e0 w = (Ok RetVoid, w1)
    /\ calls w1 = calls w ++ [CallMouseDown e0; CallStart e0 (firstSample (node_id nd) p0)]
    /\ state w1 = {| dragging := true;
                     st_lastX := Fin (fst p0); st_lastY := Fin (snd p0);
                     touchIdentifier := getTouchIdentifier e0 |}
    /\ mounted w1 = true.
Proof.
  intros Hfirst Hm Hbtn Hnode Hsc Hpos Hcb.
  pose proof (mountedNode_node Hnode) as Hnd.
  unfold DraggableCore.handleDragStart, bind, DraggableCore.invokeMouseDown, modify.
  rewrite Hbtn, Hnode, Hsc.
  unfold DraggableCore.setState, modify, lift. rewrite Hpos. unfold gets.
  unfold DraggableCore.createCoreData, findDOMNode. rewrite Hnd.
  cbn [state DraggableCore.with_state DraggableCore.with_host DraggableCore.with_call
       DraggableCore.setTouchIdentifier st_lastX].
  rewrite Hfirst. cbn [negb]. unfold DraggableCore.invoke.
  match goal with
  | |- context [onStart props e0 ?d ?h] =>
    pose proof (Hcb e0 d h) as Hv; destruct (onStart props e0 d h) as [v h']
  end.
  simpl in Hv. subst v.
  cbn [mounted DraggableCore.with_state DraggableCore.with_host DraggableCore.with_call].
  rewrite Hm. cbn [is_false negb orb].
  unfold when, DraggableCore.addEvent, DraggableCore.addUserSelectStyles, modify, ret.
  cbn beta iota zeta.
  repeat match goal with
         | |- context [if ?c then _ else _] => destruct c
         end.
  all: eexists; (split; [reflexivity|]).
  all: cbn [calls state mounted listeners DraggableCore.with_state DraggableCore.with_host
            DraggableCore.with_call DraggableCore.with_selectGuard
            DraggableCore.with_listeners DraggableCore.setDragging
            DraggableCore.setTouchIdentifier touchIdentifier finitePosition cp_x cp_y].
  all: rewrite <- app_assoc; repeat split.
  all: exact Hm.
Qed.


(** An event for which nothing is registered on the document runs no
    listener. *)
Lemma deliver_skips (snapshot : list Registration) (e : MouseTouchEvent)
    (w : World Host) :
  (forall r, In r snapshot -> onDocument r = false) ->
  DraggableCore.deliver props dom snapshot OnDocument e w = (Ok tt, w).
Proof.
  induction snapshot as [|r rs IH]; intros Hnone; [reflexivity|].
  cbn [DraggableCore.deliver]. unfold bind, gets.
  unfold DraggableCore.listensTo.
  assert (Hr : onDocument r = false) by (apply Hnone; now left).
  unfold onDocument in Hr. rewrite Hr. cbn [andb]. unfold ret at 1.
  apply IH. intros r' Hin. apply Hnone. now right.
Qed.


End TrackerFacts.

(* ================================================================== *)
(** ** The reconciler *)

Section ReconcilerFacts.
Variable User : Type.
Variable dprops : DraggableProps User.
Variable dom : Dom.

(** [Draggable.onDrag] while dragging, once [newState] and [uiData] are
    built. *)
Lemma onDrag_run (r : Reconciler User) (e : MouseTouchEvent) (cd : DraggableData)
    (st' : DraggableState) (ui : DraggableData) :
  ds_dragging (dstate r) = true ->
  Draggable.dragStep dprops dom (dstate r) cd = Ok (st', ui) ->
  Draggable.onDrag dprops dom e cd r =
    let r1 := fun u => {| dstate := dstate r; user := u;
                          userCalls := userCalls r ++ [CallDrag e ui] |} in
    match onDrag (coreProps dprops) e ui (user r) with
    | (Throw msg, u) => (Throw msg, r1 u)
    | (Ok v, u) =>
      if is_false v then (Ok RetFalse, r1 u)
      else (Ok RetVoid, Draggable.with_dstate st' (r1 u))
    end.
Proof.
  intros Hd Hs. unfold Draggable.onDrag. rewrite Hd, Hs. cbn [negb].
  unfold Draggable.invokeUser, Draggable.userOnDrag.
  destruct (onDrag (coreProps dprops) e ui (user r)) as [[v|msg] u]; reflexivity.
Qed.

(** The bounded branch of [Draggable.onDrag]. *)
Lemma dragStep_bounded (b : Bounds) (nd : DomNode) (st : DraggableState)
    (cd : DraggableData) :
  bounds dprops = BoundsRect b ->
  dom_node dom = Some nd ->
  let px := (ds_x st + deltaX cd / scale (coreProps dprops))%num in
  let py := (ds_y st + deltaY cd / scale (coreProps dprops))%num in
  let c := clampToBounds b (px + slackX st)%num (py + slackY st)%num in
  Draggable.dragStep dprops dom st cd =
    Ok ({| ds_dragging := ds_dragging st; ds_dragged := ds_dragged st;
           ds_x := fst c; ds_y := snd c;
           prevPropsPosition := prevPropsPosition st;
           slackX := (slackX st + (px - fst c))%num;
           slackY := (slackY st + (py - snd c))%num;
           isElementSVG := isElementSVG st |},
        {| node := node cd;
           x := fst c; y := snd c;
           deltaX := (fst c - ds_x st)%num; deltaY := (snd c - ds_y st)%num;
           lastX := ds_x st; lastY := ds_y st |}).
Proof.
  intros Hb Hnd px py c. unfold Draggable.dragStep. rewrite Hb.
  cbn [bounds_truthy]. unfold getBoundPosition, findDOMNode.
  cbn [bounds_truthy negb]. rewrite Hnd.
  unfold Draggable.createDraggableData. cbn [x y node lastX lastY deltaX deltaY].
  fold px py.
  change (clampToBounds (cloneBounds b) (px + slackX st)%num (py + slackY st)%num) with c.
  destruct c as [cx cy]. reflexivity.
Qed.

Lemma clamp_bounds_0_100_above (v : Qc) (py : num) :
  (qz 100 <= v)%Qc ->
  fst (clampToBounds bounds_0_100 (Fin v) py) = Num.of_Z 100.
Proof.
  intros Hv. unfold clampToBounds, bounds_0_100.
  cbn [left right top bottom isNum Num.of_Z unwrap fst Num.min Num.max].
  assert (E : (if Qcleb v (qz 100) then v else qz 100) = qz 100).
  { destruct (Qcleb v (qz 100)) eqn:E; [|reflexivity].
    apply Qcleb_le in E. now apply Qcle_antisym. }
  rewrite E. reflexivity.
Qed.


(** A vetoed [Draggable.onDrag] leaves the reconciler's state alone. *)
Lemma onDrag_vetoed (e : MouseTouchEvent) (cd : DraggableData) (r : Reconciler User) :
  (forall ui u, fst (onDrag (coreProps dprops) e ui u) = Ok RetFalse) ->
  dstate (snd (Draggable.onDrag dprops dom e cd r)) = dstate r
  /\ fst (Draggable.onDrag dprops dom e cd r) <> Ok RetVoid.
Proof.
  intros Hveto. unfold Draggable.onDrag.
  destruct (ds_dragging (dstate r)); cbn [negb]; [|split; [reflexivity|discriminate]].
  destruct (Draggable.dragStep dprops dom (dstate r) cd) as [[st' ui]|msg];
    [|split; [reflexivity|discriminate]].
  unfold Draggable.invokeUser, Draggable.userOnDrag.
  pose proof (Hveto ui (user r)) as Hv.
  destruct (onDrag (coreProps dprops) e ui (user r)) as [v u]. simpl in Hv. subst v.
  cbn. split; [reflexivity|discriminate].
Qed.

(** [Draggable.onDragStop] either leaves the state alone, or commits the
    stopped state and returns normally. *)
Lemma onDragStop_cases (e : MouseTouchEvent) (cd : DraggableData) (r : Reconciler User) :
  (dstate (snd (Draggable.onDragStop dprops e cd r)) = dstate r
   /\ fst (Draggable.onDragStop dprops e cd r) <> Ok RetVoid)
  \/ (dstate (snd (Draggable.onDragStop dprops e cd r)) = stoppedState dprops (dstate r)
      /\ fst (Draggable.onDragStop dprops e cd r) = Ok RetVoid).
Proof.
  unfold Draggable.onDragStop.
  destruct (ds_dragging (dstate r)); cbn [negb]; [|left; split; [reflexivity|discriminate]].
  unfold Draggable.invokeUser.
  destruct (onStop (coreProps dprops) e _ (user r)) as [[[|]|msg] u]; cbn.
  - left. split; [reflexivity|discriminate].
  - right. split; reflexivity.
  - left. split; [reflexivity|discriminate].
Qed.

Local Abbreviation cprops := (Draggable.renderCoreProps dprops dom).

(** The same of [handleDragStop] under the reconciler. *)
Lemma handleDragStop_effect (e : MouseTouchEvent) (w : World (Reconciler User)) :
  mounted w = true ->
  let out := DraggableCore.handleDragStop cprops dom e w in
  mounted (snd out) = true
  /\ ((state (snd out) = state w /\ dstate (host (snd out)) = dstate (host w))
      \/ (fst out = Ok RetVoid
          /\ state (snd out) = closedState (state w)
          /\ dstate (host (snd out)) = stoppedState dprops (dstate (host w)))).
Proof.
  intros Hm. cbn zeta.
  unfold DraggableCore.handleDragStop, bind, gets, lift.
  destruct (dragging (state w)); cbn [negb]; [|cbn; auto].
  destruct (DraggableCore.getControlPosition cprops dom e (touchIdentifier (state w)))
    as [[p|]|msg]; try (cbn; auto; fail).
  destruct (DraggableCore.snapStop cprops (state w) (cp_x p) (cp_y p)) as [sx sy].
  destruct (DraggableCore.createCoreData dom (state w) sx sy) as [d|msg];
    [|cbn; auto].
  unfold DraggableCore.invoke. cbn [host DraggableCore.with_call onStop Draggable.renderCoreProps].
  pose proof (onDragStop_cases e d (host w)) as Hc.
  destruct (Draggable.onDragStop dprops e d (host w)) as [[v|msg] r'];
    cbn [fst snd] in Hc.
  2:{ cbn. split; [exact Hm|]. left. split; [reflexivity|].
      destruct Hc as [[Hc _]|[_ Hc]]; [exact Hc|discriminate]. }
  cbn [mounted DraggableCore.with_host DraggableCore.with_call].
  rewrite Hm. cbn [negb]. rewrite orb_false_r.
  destruct v; cbn [is_false].
  - cbn. split; [exact Hm|]. left. split; [reflexivity|].
    destruct Hc as [[Hc _]|[_ Hc]]; [exact Hc|discriminate].
  - destruct Hc as [[_ Hc]|[Hc _]]; [congruence|].
    unfold when, DraggableCore.removeUserSelectStyles, DraggableCore.setState,
      DraggableCore.removeEvent, modify, ret.
    destruct (dom_node dom); destruct (enableUserSelectHack cprops); cbn;
      (split; [exact Hm|]); right; repeat split; exact Hc.
Qed.

(** C3, as amended.  When the user's move callback returns [false],
    [Draggable.onDrag] commits nothing and does not return normally, and
    the tracker does not advance lastX/lastY to the new position: after
    [handleDrag], either the tracker state and the reconciler state are
    both what they were before the move, or the forced stop has closed
    the session (tracker: dragging false, lastX/lastY [NaN]; reconciler:
    dragging false, slack zero, x/y the values before the move, or the
    controlled position where one is supplied). *)
Theorem move_veto_commits_nothing
    (w : World (Reconciler User)) (e : MouseTouchEvent) :
  mounted w = true ->
  (forall ui u, fst (onDrag (coreProps dprops) e ui u) = Ok RetFalse) ->
  (forall cd r,
     dstate (snd (Draggable.onDrag dprops dom e cd r)) = dstate r
     /\ fst (Draggable.onDrag dprops dom e cd r) <> Ok RetVoid)
  /\
  (let w' := snd (DraggableCore.handleDrag cprops dom e w) in
   (state w' = state w /\ dstate (host w') = dstate (host w))
   \/ (state w' = closedState (state w)
       /\ dstate (host w') = stoppedState dprops (dstate (host w)))).
Proof.
  intros Hm Hveto. split.
  { intros cd r. now apply onDrag_vetoed. }
  cbn zeta. unfold DraggableCore.handleDrag, bind, gets, lift.
  destruct (DraggableCore.getControlPosition cprops dom e (touchIdentifier (state w)))
    as [[p|]|msg]; try (cbn; auto; fail).
  destruct (DraggableCore.snapDrag cprops (state w) (cp_x p) (cp_y p)) as [[sx sy]|];
    [|cbn; auto].
  destruct (DraggableCore.createCoreData dom (state w) sx sy) as [d|msg]; [|cbn; auto].
  unfold DraggableCore.invoke. cbn [host DraggableCore.with_call onDrag Draggable.renderCoreProps].
  destruct (onDrag_vetoed e d (host w) Hveto) as [Hds Hres].
  destruct (Draggable.onDrag dprops dom e d (host w)) as [[v|msg] r']; cbn [fst snd] in *.
  2:{ cbn. left. split; [reflexivity|exact Hds]. }
  destruct v; [|congruence]. cbn [is_false orb].
  set (w2 := DraggableCore.with_host r' (DraggableCore.with_call (CallDrag e d) w)).
  assert (Hm2 : mounted w2 = true) by exact Hm.
  unfold DraggableCore.try_catch.
  destruct (@handleDragStop_effect DraggableCore.syntheticMouseUp w2 Hm2) as [Hm3 H1].
  cbn zeta in H1, Hm3.
  change (state w2) with (state w) in H1. change (host w2) with r' in H1.
  rewrite Hds in H1.
  destruct (DraggableCore.handleDragStop cprops dom DraggableCore.syntheticMouseUp w2)
    as [[v|msg] w3]; cbn [fst snd] in *.
  - cbn. destruct H1 as [H1|(_ & H1a & H1b)]; [left|right]; tauto.
  - destruct H1 as [[H1s H1d]|(Habs & _)]; [|discriminate].
    destruct (@handleDragStop_effect DraggableCore.legacyMouseUp w3 Hm3) as [_ H2].
    cbn zeta in H2. rewrite H1s, H1d in H2.
    destruct (DraggableCore.handleDragStop cprops dom DraggableCore.legacyMouseUp w3)
      as [[v|msg'] w4]; cbn [fst snd] in *; cbn;
      (destruct H2 as [H2|(_ & H2a & H2b)]; [left|right]; tauto).
Qed.

End ReconcilerFacts.

(* ================================================================== *)
(** ** Counterexamples *)

Ltac num_decide := apply num_eqb_eq; vm_compute; reflexivity.

Ltac run_decide := vm_compute; reflexivity.

(** Introduce the elements of the list a computation yields. *)
Ltac exists_computed t :=
  let v := eval vm_compute in t in
  match v with
  | [?a] => exists a
  | [?a; ?b; ?c] => exists a, b, c
  end.

Lemma qz_mul (a b : Z) : (qz a * qz b)%Qc = qz (a * b).
Proof.
  apply Qc_is_canon. unfold qz.
  change (this (Q2Qc (inject_Z a) * Q2Qc (inject_Z b))%Qc)
    with (Qred (Qred (inject_Z a) * Qred (inject_Z b))).
  change (this (Q2Qc (inject_Z (a * b)))) with (Qred (inject_Z (a * b))).
  rewrite !Qred_correct. unfold Qeq, inject_Z. simpl. lia.
Qed.



(** C3 fails as stated.  The reconciler with a user whose move callback
    returns [false], session opened at (0,0), a move to (3,3): the user is
    called with (3,3), and the tracker's lastX/lastY afterwards are [NaN],
    not (3,3). *)
Lemma move_veto_tracker_not_advanced_counterexample :
  dragging (state (Scenario.draggableOpened Scenario.vetoingUser)) = true
  /\ st_lastX (state (Scenario.draggableOpened Scenario.vetoingUser)) = Num.of_Z 0
  /\ (exists d, dragData (userCalls (host Scenario.afterUserVeto)) = [d]
                /\ x d = Num.of_Z 3 /\ y d = Num.of_Z 3)
  /\ st_lastX (state Scenario.afterUserVeto) = NaN
  /\ st_lastY (state Scenario.afterUserVeto) = NaN
  /\ st_lastX (state Scenario.afterUserVeto) <> Num.of_Z 3
  /\ st_lastY (state Scenario.afterUserVeto) <> Num.of_Z 3.
Proof.
  split; [run_decide|]. split; [num_decide|].
  split.
  { exists_computed (dragData (userCalls (host Scenario.afterUserVeto))).
    split; [run_decide|]. split; num_decide. }
  assert (Ex : st_lastX (state Scenario.afterUserVeto) = NaN) by run_decide.
  assert (Ey : st_lastY (state Scenario.afterUserVeto) = NaN) by run_decide.
  rewrite Ex, Ey. repeat split; discriminate.
Qed.



(* ================================================================== *)
(** ** The theorems at concrete inputs *)

Lemma position_ext (a b a' b' : num) :
  a = a' -> b = b' ->
  Ok (Some {| cp_x := a; cp_y := b |}) = Ok (Some {| cp_x := a'; cp_y := b' |}).
Proof. now intros -> ->. Defined.

Ltac position_decide := vm_compute; apply position_ext; num_decide.

Lemma bounds_lower_limit_wins_witness :
  exists y',
    getBoundPosition Scenario.dom
      (BoundsRect {| left := Some (Num.of_Z 100); top := None;
                     right := Some (Num.of_Z 0); bottom := None |})
      (Num.of_Z 50) Num.zero
    = Ok (Num.of_Z 100, y').
Proof.
  destruct (@bounds_lower_limit_wins Scenario.dom Scenario.theNode eq_refl)
    as (_ & _ & H & _).
  apply (H _ (qz 100) (qz 0) (qz 50)); [reflexivity | reflexivity | ].
  vm_compute. reflexivity.
Defined.

Lemma wrong_touch_dropped_witness :
  let w := Scenario.touched Scenario.plainProps in
  let e := Scenario.touchEvent "touchmove" [Scenario.finger 8 5 5]
             [Scenario.finger 8 5 5] in
  DraggableCore.handleDrag Scenario.plainProps Scenario.dom e w = (Ok tt, w)
  /\ DraggableCore.handleDragStop Scenario.plainProps Scenario.dom e w = (Ok RetVoid, w).
Proof.
  intros w e.
  apply (@wrong_touch_dropped _ Scenario.plainProps Scenario.dom w e 7%Z).
  - vm_compute. reflexivity.
  - intros ts tch E Hin. injection E as <-.
    destruct Hin as [<-|[]]. discriminate.
  - intros ts tch E Hin. injection E as <-.
    destruct Hin as [<-|[]]. discriminate.
Defined.

Lemma vetoed_start_keeps_touch_identifier_witness :
  let e := Scenario.touchEvent "touchstart" [Scenario.finger 7 0 0]
             [Scenario.finger 7 0 0] in
  exists w',
    DraggableCore.handleDragStart Scenario.vetoStart Scenario.dom e Scenario.idle
      = (Ok RetVoid, w')
    /\ touchIdentifier (state w') = TidNum 7
    /\ dragging (state w') = false
    /\ st_lastX (state w') = NaN
    /\ st_lastY (state w') = NaN
    /\ listeners w' = listeners Scenario.idle
    /\ selectGuard w' = false.
Proof.
  intros e.
  assert (Hpos : exists p,
             DraggableCore.getControlPosition Scenario.vetoStart Scenario.dom e
               (getTouchIdentifier e) = Ok (Some p)).
  { eexists. vm_compute. reflexivity. }
  destruct Hpos as [p Hpos].
  apply (@vetoed_start_keeps_touch_identifier _ Scenario.vetoStart Scenario.dom
           Scenario.idle e Scenario.theNode p).
  - reflexivity.
  - reflexivity.
  - reflexivity.
  - exact Hpos.
  - intros d h. reflexivity.
Defined.






Lemma move_veto_commits_nothing_witness :
  let w := Scenario.draggableOpened Scenario.vetoingUser in
  let w' := Scenario.afterUserVeto in
  (state w' = state w /\ dstate (host w') = dstate (host w))
  \/ (state w' = closedState (state w)
      /\ dstate (host w') = stoppedState Scenario.vetoingUser (dstate (host w))).
Proof.
  intros w w'.
  destruct (@move_veto_commits_nothing _ Scenario.vetoingUser Scenario.dom w
              (Scenario.mouseEvent "mousemove" 3 3)) as [_ H].
  - vm_compute. reflexivity.
  - intros ui u. reflexivity.
  - cbn zeta in H.
    assert (E : snd (DraggableCore.handleDrag
                       (Draggable.renderCoreProps Scenario.vetoingUser Scenario.dom)
                       Scenario.dom (Scenario.mouseEvent "mousemove" 3 3) w) = w')
      by (vm_compute; reflexivity).
    rewrite E in H. exact H.
Defined.


(* ================================================================== *)
(** ** Further properties: the geometry helpers *)

Lemma qhalf_div : qhalf = (1 / qz 2)%Qc.
Proof. apply Qc_is_canon. reflexivity. Qed.

Lemma Qcround_bounds (c : Qc) :
  (qz (Qcround c) <= c + qhalf /\ c + qhalf < qz (Qcround c) + 1)%Qc.
Proof.
  unfold Qcround. split.
  - unfold Qcle. rewrite this_qz.
    change (this (c + qhalf)%Qc) with (Qred (this c + Qred (1 # 2))).
    rewrite !Qred_correct. apply Qfloor_le.
  - unfold Qclt.
    change (this (c + qhalf)%Qc) with (Qred (this c + Qred (1 # 2))).
    change (this (qz (Qfloor (c + (1 # 2))) + 1)%Qc)
      with (Qred (this (qz (Qfloor (c + (1 # 2)))) + Qred 1)).
    rewrite !Qred_correct, this_qz.
    pose proof (Qlt_floor (c + (1 # 2))) as H.
    rewrite inject_Z_plus in H. exact H.
Qed.

Lemma Qcround_qz (k : Z) : Qcround (qz k) = k.
Proof.
  unfold Qcround.
  assert (E : (this (qz k) + (1 # 2) == inject_Z k + (1 # 2))%Q)
    by now rewrite this_qz.
  rewrite (Qfloor_comp _ _ E).
  pose proof (Qfloor_le (inject_Z k + (1 # 2))) as H1.
  pose proof (Qlt_floor (inject_Z k + (1 # 2))) as H2.
  set (f := Qfloor (inject_Z k + (1 # 2))) in *.
  assert (Hlo : (inject_Z f < inject_Z (k + 1))%Q).
  { rewrite inject_Z_plus. change (inject_Z 1) with 1%Q. lra. }
  assert (Hhi : (inject_Z k < inject_Z (f + 1))%Q) by lra.
  rewrite <- Zlt_Qlt in Hlo, Hhi. lia.
Qed.

Lemma qc_pos_neq (g : Qc) : (0 < g)%Qc -> g <> 0%Qc.
Proof. intros H E. rewrite E in H. now apply Qclt_not_le in H; apply H, Qcle_refl. Qed.

Lemma snap_axis (g p : Qc) :
  (0 < g)%Qc ->
  (Num.round (Fin p / Fin g) * Fin g)%num = Fin (qz (Qcround (p / g)) * g).
Proof.
  intros Hg. cbn [Num.div].
  destruct (Qc_eq_bool g 0) eqn:E.
  - apply Qc_eq_bool_correct in E. now apply qc_pos_neq in Hg.
  - reflexivity.
Qed.


Lemma find_touch_sound (n : Z) (ts : list Touch) (t : Touch) :
  find (fun t : Touch => (n =? identifier t)%Z) ts = Some t ->
  identifier t = n /\ In t ts.
Proof.
  intros E. apply find_some in E. destruct E as [Hin E].
  apply Z.eqb_eq in E. now split.
Qed.

Lemma find_touch_head (n : Z) (t0 : Touch) (ts : list Touch) :
  identifier t0 = n ->
  find (fun t : Touch => (n =? identifier t)%Z) (t0 :: ts) = Some t0.
Proof. intros <-. cbn [find]. now rewrite Z.eqb_refl. Qed.

Lemma start_touch_found (e : MouseTouchEvent) (n : Z) :
  getTouchIdentifier e = TidNum n -> exists t, getTouch e n = Some t.
Proof.
  intros Hid. unfold getTouchIdentifier in Hid. unfold getTouch, findInArray.
  destruct (e_targetTouches e) as [[|t0 ts]|] eqn:Et.
  - cbn [find].
    destruct (e_changedTouches e) as [[|c0 cs]|] eqn:Ec; try discriminate.
    injection Hid as Hid. rewrite (@find_touch_head n c0 cs Hid). now exists c0.
  - injection Hid as Hid. rewrite (@find_touch_head n t0 ts Hid). now exists t0.
  - destruct (e_changedTouches e) as [[|c0 cs]|] eqn:Ec; try discriminate.
    injection Hid as Hid. rewrite (@find_touch_head n c0 cs Hid). now exists c0.
Qed.

(** X2. The identifier [getTouchIdentifier] reads off an event is one
    [getTouch] finds again in the same event: the touch found carries that
    identifier and comes from [targetTouches] or [changedTouches]. *)
Theorem getTouch_of_getTouchIdentifier (e : MouseTouchEvent) (n : Z) :
  getTouchIdentifier e = TidNum n ->
  exists t,
    getTouch e n = Some t
    /\ identifier t = n
    /\ ((exists ts, e_targetTouches e = Some ts /\ In t ts)
        \/ (exists ts, e_changedTouches e = Some ts /\ In t ts)).
Proof.
  intros Hid. destruct (start_touch_found e Hid) as [t Ht]. exists t.
  split; [exact Ht|]. unfold getTouch, findInArray in Ht.
  destruct (e_targetTouches e) as [ts|] eqn:Et.
  - destruct (find (fun t : Touch => (n =? identifier t)%Z) ts) as [t1|] eqn:E1.
    + injection Ht as <-. destruct (find_touch_sound _ _ E1) as [H1 H2].
      split; [exact H1|]. left. now exists ts.
    + destruct (e_changedTouches e) as [cs|] eqn:Ec; [|discriminate].
      destruct (find_touch_sound _ _ Ht) as [H1 H2].
      split; [exact H1|]. right. now exists cs.
  - destruct (e_changedTouches e) as [cs|] eqn:Ec; [|discriminate].
    destruct (find_touch_sound _ _ Ht) as [H1 H2].
    split; [exact H1|]. right. now exists cs.
Qed.


(** X4. [matchesSelectorAndParentsTo] looks at the target and its
    ancestors up to and including the base node, and no further: what lies
    above the base node has no influence; without the base node among the
    ancestors the whole chain is searched; a target that is the base node
    is the only node tested. *)
Theorem matchesSelectorAndParentsTo_up_to_base
    (dom : Dom) (selector : string) (baseNode : NodeId) :
  (forall target pre post,
     ~ In baseNode (target :: pre) ->
     matchesSelectorAndParentsTo dom (target, pre ++ baseNode :: post) selector baseNode
     = existsb (fun n => dom_matches dom n selector) (target :: pre ++ [baseNode]))
  /\ (forall target parents,
        ~ In baseNode (target :: parents) ->
        matchesSelectorAndParentsTo dom (target, parents) selector baseNode
        = existsb (fun n => dom_matches dom n selector) (target :: parents))
  /\ (forall parents,
        matchesSelectorAndParentsTo dom (baseNode, parents) selector baseNode
        = dom_matches dom baseNode selector).
Proof.
  unfold matchesSelectorAndParentsTo. cbn [fst snd]. split; [|split].
  3:{ intros parents.
      destruct parents; cbn [matchesSelectorAndParentsTo_loop]; unfold matchesSelector;
        destruct (dom_matches dom baseNode selector); try reflexivity;
        now rewrite Nat.eqb_refl. }
  - intros target pre. revert target.
    induction pre as [|a pre IH]; intros target post Hnot.
    + cbn [app matchesSelectorAndParentsTo_loop existsb]. unfold matchesSelector.
      destruct (dom_matches dom target selector); [reflexivity|]. cbn [orb].
      assert (E : Nat.eqb target baseNode = false).
      { apply Nat.eqb_neq. intros ->. apply Hnot. now left. }
      rewrite E.
      destruct post; cbn [matchesSelectorAndParentsTo_loop]; unfold matchesSelector;
        destruct (dom_matches dom baseNode selector); cbn [orb];
        try reflexivity; now rewrite Nat.eqb_refl.
    + cbn [app matchesSelectorAndParentsTo_loop existsb]. unfold matchesSelector.
      destruct (dom_matches dom target selector); [reflexivity|]. cbn [orb].
      assert (E : Nat.eqb target baseNode = false).
      { apply Nat.eqb_neq. intros ->. apply Hnot. now left. }
      rewrite E. rewrite (IH a post).
      * reflexivity.
      * intros Hin. apply Hnot. now right.
  - intros target parents. revert target.
    induction parents as [|a ps IH]; intros target Hnot.
    + cbn [matchesSelectorAndParentsTo_loop existsb]. unfold matchesSelector.
      destruct (dom_matches dom target selector); [reflexivity|]. cbn [orb].
      now destruct (Nat.eqb target baseNode).
    + cbn [matchesSelectorAndParentsTo_loop existsb]. unfold matchesSelector.
      destruct (dom_matches dom target selector); [reflexivity|]. cbn [orb].
      assert (E : Nat.eqb target baseNode = false).
      { apply Nat.eqb_neq. intros ->. apply Hnot. now left. }
      rewrite E. rewrite IH; [reflexivity|].
      intros Hin. apply Hnot. now right.
Qed.

(** X5. At the start of a drag [getControlPosition] never returns null:
    called with the identifier [getTouchIdentifier] gives for the same
    event, it returns a position or throws, so the null test of
    [handleDragStart] is never taken. *)
Theorem start_position_never_null
    (Host : Type) (props : DraggableCoreProps Host) (dom : Dom) (e : MouseTouchEvent) :
  (exists p, DraggableCore.getControlPosition props dom e (getTouchIdentifier e)
             = Ok (Some p))
  \/ (exists msg, DraggableCore.getControlPosition props dom e (getTouchIdentifier e)
                  = Throw msg).
Proof.
  unfold DraggableCore.getControlPosition.
  assert (Hrest : forall touchObj : option Touch,
    (exists p,
       match findDOMNode dom with
       | Throw msg => Throw msg
       | Ok nd =>
         match match offsetParent props with
               | Some p => Some p
               | None => match node_offsetParent nd with
                         | Some p => Some p
                         | None => node_body nd
                         end
               end with
         | None => Throw "TypeError: offsetParent is null"
         | Some p =>
           Ok (Some (offsetXYFromParent
                       match touchObj with Some t => touch_clientX t | None => e_clientX e end
                       match touchObj with Some t => touch_clientY t | None => e_clientY e end
                       p (scale props)))
         end
       end = Ok (Some p))
    \/ (exists msg,
          match findDOMNode dom with
          | Throw msg => Throw msg
          | Ok nd =>
            match match offsetParent props with
                  | Some p => Some p
                  | None => match node_offsetParent nd with
                            | Some p => Some p
                            | None => node_body nd
                            end
                  end with
            | None => Throw "TypeError: offsetParent is null"
            | Some p =>
              Ok (Some (offsetXYFromParent
                          match touchObj with Some t => touch_clientX t | None => e_clientX e end
                          match touchObj with Some t => touch_clientY t | None => e_clientY e end
                          p (scale props)))
            end
          end = Throw msg)).
  { intros touchObj.
    destruct (findDOMNode dom) as [nd|msg]; [|right; now exists msg].
    destruct (offsetParent props) as [p|]; [left; eexists; reflexivity|].
    destruct (node_offsetParent nd) as [p|]; [left; eexists; reflexivity|].
    destruct (node_body nd) as [p|]; [left; eexists; reflexivity|].
    right. eexists; reflexivity. }
  destruct (getTouchIdentifier e) as [| |n] eqn:Hid.
  - exact (Hrest None).
  - exact (Hrest None).
  - destruct (start_touch_found e Hid) as [t Ht]. rewrite Ht.
    exact (Hrest (Some t)).
Qed.

Lemma clamp_axis (l r v : Qc) :
  (l <= r)%Qc ->
  exists c, Num.max (Num.min (Fin v) (Fin r)) (Fin l) = Fin c
            /\ (l <= c /\ c <= r)%Qc
            /\ ((l <= v /\ v <= r)%Qc -> c = v).
Proof.
  intros Hlr. cbn [Num.min Num.max].
  destruct (Qcleb v r) eqn:E1.
  - apply Qcleb_le in E1. destruct (Qcleb v l) eqn:E2.
    + apply Qcleb_le in E2. exists l. split; [reflexivity|].
      split; [split; [apply Qcle_refl|exact Hlr]|].
      intros [Hlv _]. now apply Qcle_antisym.
    + apply Qcleb_gt in E2. exists v. split; [reflexivity|].
      split; [split; [now apply Qclt_le_weak|exact E1]|]. reflexivity.
  - apply Qcleb_gt in E1. destruct (Qcleb r l) eqn:E2.
    + apply Qcleb_le in E2. exists l. split; [reflexivity|].
      split; [split; [apply Qcle_refl|exact Hlr]|].
      intros [_ Hvr]. exfalso. now apply (Qclt_not_le _ _ E1).
    + exists r. split; [reflexivity|].
      split; [split; [exact Hlr|apply Qcle_refl]|].
      intros [_ Hvr]. exfalso. now apply (Qclt_not_le _ _ E1).
Qed.

(** X6. With numeric bounds [left <= right] and [top <= bottom] on a
    mounted node, [getBoundPosition] returns a point inside the bounds,
    returns a coordinate that is inside already as it is, and is
    idempotent. *)
Theorem getBoundPosition_within_bounds
    (dom : Dom) (nd : DomNode) (l t r b px py : Qc) :
  dom_node dom = Some nd ->
  (l <= r)%Qc -> (t <= b)%Qc ->
  let bnds := BoundsRect {| left := Some (Fin l); top := Some (Fin t);
                            right := Some (Fin r); bottom := Some (Fin b) |} in
  exists cx cy,
    getBoundPosition dom bnds (Fin px) (Fin py) = Ok (Fin cx, Fin cy)
    /\ (l <= cx /\ cx <= r)%Qc
    /\ (t <= cy /\ cy <= b)%Qc
    /\ ((l <= px /\ px <= r)%Qc -> cx = px)
    /\ ((t <= py /\ py <= b)%Qc -> cy = py)
    /\ getBoundPosition dom bnds (Fin cx) (Fin cy) = Ok (Fin cx, Fin cy).
Proof.
  intros Hnd Hlr Htb bnds.
  destruct (clamp_axis px Hlr) as (cx & Ex & Hcx & Hfx).
  destruct (clamp_axis py Htb) as (cy & Ey & Hcy & Hfy).
  destruct (clamp_axis cx Hlr) as (cx' & Ex' & _ & Hfx').
  destruct (clamp_axis cy Htb) as (cy' & Ey' & _ & Hfy').
  exists cx, cy.
  assert (Hrun : forall vx vy,
            getBoundPosition dom bnds (Fin vx) (Fin vy)
            = Ok (Num.max (Num.min (Fin vx) (Fin r)) (Fin l),
                  Num.max (Num.min (Fin vy) (Fin b)) (Fin t))).
  { intros vx vy. unfold getBoundPosition, findDOMNode. rewrite Hnd. reflexivity. }
  rewrite !Hrun, Ex, Ey, Ex', Ey'.
  rewrite (Hfx' Hcx), (Hfy' Hcy). repeat split; try tauto.
Qed.

(** X7. The cases of [getBoundPosition]: falsy bounds (false, or the
    empty selector) return the position as it came; truthy bounds on an
    unmounted node throw [<DraggableCore>: Unmounted during event!]; a
    selector that finds no element throws [Bounds selector ... could not
    find an element.]; a selector that finds one clamps to the bounds
    measured from the two boxes. *)
Theorem getBoundPosition_errors (dom : Dom) (px py : num) :
  (getBoundPosition dom BoundsFalse px py = Ok (px, py)
   /\ getBoundPosition dom (BoundsSelector EmptyString) px py = Ok (px, py))
  /\ (forall bnds,
        bounds_truthy bnds = true -> dom_node dom = None ->
        getBoundPosition dom bnds px py
        = Throw "<DraggableCore>: Unmounted during event!")
  /\ (forall nd s,
        dom_node dom = Some nd -> s <> EmptyString ->
        (if String.eqb s "parent" then node_parent nd else dom_querySelector dom s) = None ->
        getBoundPosition dom (BoundsSelector s) px py
        = Throw ("Bounds selector " ++ dquote ++ s ++ dquote
                 ++ " could not find an element."))
  /\ (forall nd s bn,
        dom_node dom = Some nd -> s <> EmptyString ->
        (if String.eqb s "parent" then node_parent nd else dom_querySelector dom s)
          = Some bn ->
        getBoundPosition dom (BoundsSelector s) px py
        = Ok (clampToBounds (measureBounds (node_box nd) bn) px py)).
Proof.
  split; [split; reflexivity|]. split; [|split].
  - intros bnds Ht Hn. unfold getBoundPosition, findDOMNode. now rewrite Ht, Hn.
  - intros nd s Hn Hs Hb. unfold getBoundPosition, findDOMNode. cbn [bounds_truthy].
    assert (E : String.eqb s EmptyString = false) by now apply String.eqb_neq.
    rewrite E, Hn. cbn [negb]. now rewrite Hb.
  - intros nd s bn Hn Hs Hb. unfold getBoundPosition, findDOMNode. cbn [bounds_truthy].
    assert (E : String.eqb s EmptyString = false) by now apply String.eqb_neq.
    rewrite E, Hn. cbn [negb]. now rewrite Hb.
Qed.

(** X8. The bounds [getBoundPosition] measures from a bounding element
    keep the node's box inside it: a translation not below [left] puts the
    node's margin edge at or after the element's left padding, and one not
    above [right] puts the right margin edge of the node's outer width at
    or before [clientWidth - paddingLeft] of the element; likewise for top
    and bottom. *)
Theorem measured_bounds_keep_node_inside (n b : BoxMeasures) :
  exists l t r m,
    measureBounds (boxOf n) (boxOf b)
      = {| left := Some (Fin l); top := Some (Fin t);
           right := Some (Fin r); bottom := Some (Fin m) |}
    /\ (forall px, l <= px ->
          m_paddingLeft b + m_marginLeft n <= m_offsetLeft n + px)%Qc
    /\ (forall px, px <= r ->
          m_offsetLeft n + px
            + (m_clientWidth n + m_borderLeftWidth n + m_borderRightWidth n)
            + m_marginRight n
          <= m_clientWidth b - m_paddingLeft b)%Qc
    /\ (forall py, t <= py ->
          m_paddingTop b + m_marginTop n <= m_offsetTop n + py)%Qc
    /\ (forall py, py <= m ->
          m_offsetTop n + py
            + (m_clientHeight n + m_borderTopWidth n + m_borderBottomWidth n)
            + m_marginBottom n
          <= m_clientHeight b - m_paddingTop b)%Qc.
Proof.
  do 4 eexists. split.
  { unfold measureBounds, innerWidth, innerHeight, outerWidth, outerHeight, boxOf,
      Num.zero, Num.of_Z.
    cbn [clientWidth clientHeight offsetLeft offsetTop paddingLeft paddingRight
         paddingTop paddingBottom marginLeft marginRight marginTop marginBottom
         borderLeftWidth borderRightWidth borderTopWidth borderBottomWidth
         Num.add Num.sub].
    reflexivity. }
  change (qz 0) with 0%Qc.
  repeat split; intros p Hp; apply Qcle_minus_iff; apply Qcle_minus_iff in Hp;
    match goal with
    | H : (0 <= ?a)%Qc |- (0 <= ?c)%Qc => replace c with a by ring; exact H
    end.
Qed.

(* ================================================================== *)
(** ** Further properties: the tracker *)

Section TrackerMore.
Variable Host : Type.
Variable props : DraggableCoreProps Host.
Variable dom : Dom.

(** [handleDragStart], once the guards are passed and the position is
    resolved. *)
Lemma handleDragStart_run (w : World Host) (e : MouseTouchEvent) (nd : DomNode)
    (p : ControlPosition) :
  DraggableCore.notLeftClick props e = false ->
  DraggableCore.mountedNode dom = Some nd ->
  DraggableCore.shortCircuits props dom e nd = false ->
  DraggableCore.getControlPosition props dom e (getTouchIdentifier e) = Ok (Some p) ->
  exists d,
    DraggableCore.createCoreData dom (state w) (cp_x p) (cp_y p) = Ok d
    /\ DraggableCore.handleDragStart props dom e w =
       let w1 := DraggableCore.with_call (CallStart e d)
                   (DraggableCore.with_state
                      (DraggableCore.setTouchIdentifier (getTouchIdentifier e))
                      (afterMouseDown props e w)) in
       match onStart props e d (host (afterMouseDown props e w)) with
       | (Throw msg, h) => (Throw msg, DraggableCore.with_host h w1)
       | (Ok v, h) =>
         if is_false v || negb (mounted w)
         then (Ok RetVoid, DraggableCore.with_host h w1)
         else (Ok RetVoid, openSession props p (DraggableCore.with_host h w1))
       end.
Proof.
  intros Hbtn Hnode Hsc Hpos.
  pose proof (mountedNode_node dom Hnode) as Hnd.
  destruct (createCoreData_mounted dom (state w) (cp_x p) (cp_y p) Hnd)
    as (d & Hd & _ & _).
  exists d. split; [exact Hd|].
  unfold DraggableCore.handleDragStart, bind, DraggableCore.invokeMouseDown, modify.
  rewrite Hbtn, Hnode, Hsc.
  unfold DraggableCore.setState, modify, lift. rewrite Hpos. unfold gets.
  assert (Hd' : DraggableCore.createCoreData dom
                  (state (DraggableCore.with_state
                            (DraggableCore.setTouchIdentifier (getTouchIdentifier e))
                            (afterMouseDown props e w))) (cp_x p) (cp_y p) = Ok d) by exact Hd.
  unfold afterMouseDown in *. rewrite Hd'.
  unfold DraggableCore.invoke.
  cbn [host DraggableCore.with_call DraggableCore.with_state DraggableCore.with_host].
  destruct (onStart props e d (onMouseDown props e (host w))) as [[v|msg] h];
    [|reflexivity].
  cbn [mounted DraggableCore.with_call DraggableCore.with_state DraggableCore.with_host].
  destruct (is_false v || negb (mounted w)); [reflexivity|].
  unfold openSession, register, when, DraggableCore.addEvent,
    DraggableCore.addUserSelectStyles, modify, ret.
  cbn beta iota zeta.
  destruct (enableUserSelectHack props);
    cbn [listeners dragEventFor DraggableCore.with_call DraggableCore.with_state
         DraggableCore.with_host DraggableCore.with_selectGuard
         DraggableCore.with_listeners];
    unfold moveRegistration, stopRegistration;
    set (mv := {| reg_target := OnDocument; reg_event := ev_move (dragEventFor w);
                  reg_handler := HandleDrag |});
    set (sp := {| reg_target := OnDocument; reg_event := ev_stop (dragEventFor w);
                  reg_handler := HandleDragStop |});
    destruct (existsb (Registration_eqb mv) (listeners w));
    cbn [listeners dragEventFor DraggableCore.with_call DraggableCore.with_state
         DraggableCore.with_host DraggableCore.with_selectGuard
         DraggableCore.with_listeners];
    fold sp;
    match goal with
    | |- context [existsb (Registration_eqb sp) ?l] =>
      destruct (existsb (Registration_eqb sp) l)
    end; reflexivity.
Qed.
Lemma register_In (r : Registration) (l : list Registration) : In r (register r l).
Proof.
  unfold register. destruct (existsb (Registration_eqb r) l) eqn:E.
  - apply existsb_exists in E. destruct E as (r' & Hin & E).
    apply Registration_eqb_eq in E. now subst.
  - apply in_or_app. right. now left.
Qed.

Lemma register_keeps (r r' : Registration) (l : list Registration) :
  In r' l -> In r' (register r l).
Proof.
  unfold register. destruct (existsb (Registration_eqb r) l); [auto|].
  intros H. apply in_or_app. now left.
Qed.

Lemma register_inv (r r' : Registration) (l : list Registration) :
  In r' (register r l) -> r' = r \/ In r' l.
Proof.
  unfold register. destruct (existsb (Registration_eqb r) l); [auto|].
  intros H. apply in_app_or in H. destruct H as [H|[H|[]]]; auto.
Qed.

(** X9. A start that passes the guards, resolves a position and is not
    vetoed opens a session: [onMouseDown] and [onStart] are called, in
    that order, with the position (and a zero delta on a fresh tracker);
    the state becomes dragging with lastX/lastY at the position and the
    event's touch identifier; the selection guard is set when the hack is
    enabled; the move and stop listeners of the current device family are
    on the document, and no other listener is, if none was before. *)
Theorem start_opens_session
    (w : World Host) (e : MouseTouchEvent) (nd : DomNode) (p : ControlPosition) :
  DraggableCore.notLeftClick props e = false ->
  DraggableCore.mountedNode dom = Some nd ->
  DraggableCore.shortCircuits props dom e nd = false ->
  DraggableCore.getControlPosition props dom e (getTouchIdentifier e) = Ok (Some p) ->
  mounted w = true ->
  (forall d h, fst (onStart props e d h) = Ok RetVoid) ->
  exists w' d,
    DraggableCore.handleDragStart props dom e w = (Ok RetVoid, w')
    /\ calls w' = calls w ++ [CallMouseDown e; CallStart e d]
    /\ (x d = cp_x p /\ y d = cp_y p)
    /\ (st_lastX (state w) = NaN -> deltaX d = Num.zero /\ deltaY d = Num.zero)
    /\ state w' = {| dragging := true;
                     st_lastX := cp_x p; st_lastY := cp_y p;
                     touchIdentifier := getTouchIdentifier e |}
    /\ (enableUserSelectHack props = true -> selectGuard w' = true)
    /\ In (moveRegistration (dragEventFor w)) (listeners w')
    /\ In (stopRegistration (dragEventFor w)) (listeners w')
    /\ ((forall r, In r (listeners w) -> onDocument r = false) -> sessionListeners w').
Proof.
  intros Hbtn Hnode Hsc Hpos Hm Hcb.
  destruct (@handleDragStart_run w e nd p Hbtn Hnode Hsc Hpos) as (d & Hd & Hrun).
  cbn zeta in Hrun.
  pose proof (Hcb d (host (afterMouseDown props e w))) as Hv.
  destruct (onStart props e d (host (afterMouseDown props e w))) as [v h].
  simpl in Hv. subst v. rewrite Hm in Hrun. cbn [is_false negb orb] in Hrun.
  eexists. exists d. split; [exact Hrun|].
  unfold openSession. cbn zeta.
  split.
  { destruct (enableUserSelectHack props); cbn; rewrite <- app_assoc; reflexivity. }
  split.
  { unfold DraggableCore.createCoreData, findDOMNode in Hd.
    destruct (dom_node dom); [|discriminate].
    destruct (negb (isNum (Some (st_lastX (state w))))); injection Hd as <-; now split. }
  split.
  { intros Hnan. unfold DraggableCore.createCoreData, findDOMNode in Hd.
    destruct (dom_node dom); [|discriminate]. rewrite Hnan in Hd. cbn in Hd.
    injection Hd as <-. now split. }
  split.
  { destruct (enableUserSelectHack props); reflexivity. }
  split.
  { intros Hh. rewrite Hh. reflexivity. }
  cbn [listeners DraggableCore.with_listeners dragEventFor DraggableCore.with_host
       DraggableCore.with_call DraggableCore.with_state afterMouseDown].
  split; [apply register_keeps, register_In|].
  split; [apply register_In|].
  intros Hnone r Hin Hdoc.
  cbn [dragEventFor DraggableCore.with_listeners DraggableCore.with_state] in *.
  assert (Hdef : dragEventFor
                   (if enableUserSelectHack props
                    then DraggableCore.with_selectGuard true
                           (DraggableCore.with_host h
                              (DraggableCore.with_call (CallStart e d)
                                 (DraggableCore.with_state
                                    (DraggableCore.setTouchIdentifier (getTouchIdentifier e))
                                    (afterMouseDown props e w))))
                    else DraggableCore.with_host h
                           (DraggableCore.with_call (CallStart e d)
                              (DraggableCore.with_state
                                 (DraggableCore.setTouchIdentifier (getTouchIdentifier e))
                                 (afterMouseDown props e w))))
                 = dragEventFor w)
    by (destruct (enableUserSelectHack props); reflexivity).
  rewrite Hdef.
  apply register_inv in Hin. destruct Hin as [->|Hin]; [now right|].
  apply register_inv in Hin. destruct Hin as [->|Hin]; [now left|].
  apply Hnone in Hin. congruence.
Qed.


(** X11. Without a node the handlers throw: [handleDragStart] throws
    [<DraggableCore> not mounted on DragStart!] after [props.onMouseDown]
    has run, and [handleDrag] and (while dragging) [handleDragStop] throw
    [<DraggableCore>: Unmounted during event!] when the event is not one
    of a foreign touch, leaving the tracker as it was. *)
Theorem unmounted_node_raises (w : World Host) (e : MouseTouchEvent) :
  (DraggableCore.notLeftClick props e = false ->
   DraggableCore.mountedNode dom = None ->
   DraggableCore.handleDragStart props dom e w
   = (Throw "<DraggableCore> not mounted on DragStart!", afterMouseDown props e w))
  /\ (dom_node dom = None ->
      (forall n, touchIdentifier (state w) = TidNum n -> getTouch e n <> None) ->
      DraggableCore.handleDrag props dom e w
      = (Throw "<DraggableCore>: Unmounted during event!", w)
      /\ (dragging (state w) = true ->
          DraggableCore.handleDragStop props dom e w
          = (Throw "<DraggableCore>: Unmounted during event!", w))).
Proof.
  split.
  - intros Hbtn Hnode. unfold DraggableCore.handleDragStart, bind,
      DraggableCore.invokeMouseDown, modify. now rewrite Hbtn, Hnode.
  - intros Hnd Htid.
    assert (Hpos : DraggableCore.getControlPosition props dom e (touchIdentifier (state w))
                   = Throw "<DraggableCore>: Unmounted during event!").
    { unfold DraggableCore.getControlPosition, findDOMNode. rewrite Hnd.
      destruct (touchIdentifier (state w)) as [| |n]; try reflexivity.
      specialize (Htid n eq_refl). now destruct (getTouch e n). }
    split.
    + unfold DraggableCore.handleDrag, bind, gets, lift. now rewrite Hpos.
    + intros Hdr. unfold DraggableCore.handleDragStop, bind, gets, lift.
      now rewrite Hdr, Hpos.
Qed.

(** X12. Once a stop has closed the session, a further stop does
    nothing: [handleDragStop] returns at its first line, no callback is
    invoked a second time, and [onMouseUp] and [onTouchEnd] only record
    their device family. *)
Theorem second_stop_is_ignored
    (w : World Host) (e e' : MouseTouchEvent) (p : ControlPosition) :
  dragging (state w) = true ->
  mounted w = true ->
  DraggableCore.getControlPosition props dom e (touchIdentifier (state w)) = Ok (Some p) ->
  (forall d h, fst (onStop props e d h) = Ok RetVoid) ->
  let w' := snd (DraggableCore.handleDragStop props dom e w) in
  (exists d, calls w' = calls w ++ [CallStop e d])
  /\ DraggableCore.handleDragStop props dom e' w' = (Ok RetVoid, w')
  /\ DraggableCore.onMouseUp props dom e' w'
     = (Ok RetVoid, DraggableCore.with_dragEventFor eventsFor.mouse w')
  /\ DraggableCore.onTouchEnd props dom e' w'
     = (Ok RetVoid, DraggableCore.with_dragEventFor eventsFor.touch w').
Proof.
  intros Hdrag Hm Hpos Hcb.
  destruct (resolved_position_mounted _ _ _ _ Hpos) as [nd Hnd].
  destruct (createCoreData_mounted dom (state w)
              (fst (DraggableCore.snapStop props (state w) (cp_x p) (cp_y p)))
              (snd (DraggableCore.snapStop props (state w) (cp_x p) (cp_y p))) Hnd)
    as (d & Hd & _ & _).
  rewrite (handleDragStop_run props dom w e Hdrag Hpos Hd). cbn zeta.
  pose proof (Hcb d (host w)) as Hv.
  destruct (onStop props e d (host w)) as [v h]. simpl in Hv. subst v.
  rewrite Hm. cbn [is_false negb orb snd].
  match goal with
  | |- context [closeSession props ?w0] =>
    pose proof (closeSession_spec props w0) as Hc; set (w' := closeSession props w0) in *
  end.
  cbn zeta in Hc. destruct Hc as (Hd' & _ & _ & _ & _ & _ & _ & _ & _ & Hcalls & _).
  split; [exists d; exact Hcalls|].
  unfold DraggableCore.onMouseUp, DraggableCore.onTouchEnd,
    DraggableCore.handleDragStop, bind, gets, modify.
  cbn [state DraggableCore.with_dragEventFor]. rewrite Hd'. cbn [negb].
  repeat split.
Qed.

(** An event no listener of the snapshot listens to runs none. *)
Lemma deliver_deaf (snapshot : list Registration) (el : EventTarget)
    (e : MouseTouchEvent) (w : World Host) :
  (forall r, In r snapshot -> DraggableCore.listensTo el e r = false) ->
  DraggableCore.deliver props dom snapshot el e w = (Ok tt, w).
Proof.
  induction snapshot as [|r rs IH]; intros Hnone; [reflexivity|].
  cbn [DraggableCore.deliver]. unfold bind, gets.
  rewrite (Hnone r (or_introl eq_refl)). cbn [andb]. unfold ret at 1.
  apply IH. intros r' Hin. apply Hnone. now right.
Qed.

Lemma deliver_once (l1 l2 : list Registration) (m : Registration)
    (e : MouseTouchEvent) (w : World Host) :
  (forall r, In r (l1 ++ l2) -> DraggableCore.listensTo OnDocument e r = false) ->
  DraggableCore.listensTo OnDocument e m = true ->
  In m (listeners w) ->
  DraggableCore.deliver props dom (l1 ++ m :: l2) OnDocument e w
  = (Ok tt, snd (DraggableCore.runListener props dom (reg_handler m) e w)).
Proof.
  intros Hdeaf Hm Hin. induction l1 as [|r rs IH].
  - cbn [app DraggableCore.deliver]. unfold bind, gets. rewrite Hm.
    assert (E : existsb (Registration_eqb m) (listeners w) = true).
    { apply existsb_exists. exists m. split; [exact Hin|]. now apply Registration_eqb_eq. }
    rewrite E. cbn [andb]. unfold DraggableCore.try_catch.
    destruct (DraggableCore.runListener props dom (reg_handler m) e w) as [[u|msg] w1];
      cbn [snd]; apply deliver_deaf; intros r Hr; apply Hdeaf; exact Hr.
  - cbn [app DraggableCore.deliver]. unfold bind, gets.
    rewrite (Hdeaf r (or_introl eq_refl)). cbn [andb]. unfold ret at 1.
    apply IH. intros r' Hr. apply Hdeaf. now right.
Qed.


(** X14. A grid of [[0, 0]] freezes the tracker: every snapped delta is
    NaN, so [handleDrag] skips every move, with no callback and no state
    change, and the position a stop reports is (NaN, NaN). *)
Theorem zero_grid_skips_every_move (w : World Host) (e : MouseTouchEvent) :
  grid props = Some (Num.zero, Num.zero) ->
  snd (DraggableCore.handleDrag props dom e w) = w
  /\ (forall px py, DraggableCore.snapStop props (state w) px py = (NaN, NaN)).
Proof.
  intros Hg.
  assert (Hz : forall a b, snapToGrid (Num.zero, Num.zero) a b = (NaN, NaN)).
  { intros a b. unfold snapToGrid. cbn [fst snd].
    destruct a, b; reflexivity. }
  split.
  - unfold DraggableCore.handleDrag, bind, gets, lift.
    destruct (DraggableCore.getControlPosition props dom e (touchIdentifier (state w)))
      as [[p|]|msg]; try reflexivity.
    unfold DraggableCore.snapDrag. rewrite Hg, Hz. reflexivity.
  - intros px py. unfold DraggableCore.snapStop. rewrite Hg, Hz.
    destruct (st_lastX (state w)), (st_lastY (state w)); reflexivity.
Qed.

Lemma grid_step_falsy (k : Z) (g : Qc) :
  g <> 0%Qc -> Num.truthy (Fin (qz k * g)%Qc) = negb (k =? 0)%Z.
Proof.
  intros Hg. cbn [Num.truthy]. f_equal. destruct (Z.eqb_spec k 0) as [->|Hk].
  - replace (qz 0 * g)%Qc with 0%Qc by (change (qz 0) with 0%Qc; ring). reflexivity.
  - destruct (Qc_eq_bool (qz k * g) 0) eqn:E; [|reflexivity].
    apply Qc_eq_bool_correct in E. apply Qcmult_integral in E.
    destruct E as [E|E]; [|contradiction].
    apply (@qz_inj k 0) in E. contradiction.
Qed.

Lemma or_else_zero (d : Qc) : Num.or_else (Fin d) Num.zero = Fin d.
Proof.
  unfold Num.or_else. cbn [Num.truthy].
  destruct (Qc_eq_bool d 0) eqn:E; [|reflexivity].
  apply Qc_eq_bool_correct in E. now subst.
Qed.


Lemma unregister_keeps (r r' : Registration) (l : list Registration) :
  In r' l -> r' <> r -> In r' (unregister r l).
Proof.
  intros Hin Hne. unfold unregister. apply filter_In. split; [exact Hin|].
  destruct (Registration_eqb r r') eqn:E; [|reflexivity].
  apply Registration_eqb_eq in E. congruence.
Qed.

(** X16. The entry points choose the device family: a start through
    [onTouchStart] registers the touchmove/touchend listeners on the
    document and one through [onMouseDown] the mousemove/mouseup ones,
    whatever family the tracker remembered before. *)
Theorem entry_points_choose_the_family
    (w : World Host) (e : MouseTouchEvent) (nd : DomNode) (p : ControlPosition) :
  DraggableCore.notLeftClick props e = false ->
  DraggableCore.mountedNode dom = Some nd ->
  DraggableCore.shortCircuits props dom e nd = false ->
  DraggableCore.getControlPosition props dom e (getTouchIdentifier e) = Ok (Some p) ->
  mounted w = true ->
  (forall d h, fst (onStart props e d h) = Ok RetVoid) ->
  (let w' := snd (DraggableCore.onTouchStart props dom e w) in
   dragging (state w') = true
   /\ dragEventFor w' = eventsFor.touch
   /\ In (moveRegistration eventsFor.touch) (listeners w')
   /\ In (stopRegistration eventsFor.touch) (listeners w'))
  /\ (let w' := snd (DraggableCore.onMouseDown props dom e w) in
      dragging (state w') = true
      /\ dragEventFor w' = eventsFor.mouse
      /\ In (moveRegistration eventsFor.mouse) (listeners w')
      /\ In (stopRegistration eventsFor.mouse) (listeners w')).
Proof.
  intros Hbtn Hnode Hsc Hpos Hm Hcb.
  assert (Hfam : forall names,
            let w' := snd (DraggableCore.handleDragStart props dom e
                             (DraggableCore.with_dragEventFor names w)) in
            dragging (state w') = true
            /\ dragEventFor w' = names
            /\ In (moveRegistration names) (listeners w')
            /\ In (stopRegistration names) (listeners w')).
  { intros names. cbn zeta.
    destruct (@handleDragStart_run (DraggableCore.with_dragEventFor names w) e nd p
                Hbtn Hnode Hsc Hpos) as (d & Hd & Hrun).
    cbn zeta in Hrun. rewrite Hrun.
    pose proof (Hcb d (host (afterMouseDown props e
                               (DraggableCore.with_dragEventFor names w)))) as Hv.
    destruct (onStart props e d
                (host (afterMouseDown props e (DraggableCore.with_dragEventFor names w))))
      as [v h].
    simpl in Hv. subst v.
    cbn [mounted DraggableCore.with_dragEventFor]. rewrite Hm.
    cbn [is_false negb orb snd]. unfold openSession. cbn zeta.
    cbn [listeners DraggableCore.with_listeners dragEventFor DraggableCore.with_host
         DraggableCore.with_call DraggableCore.with_state afterMouseDown
         DraggableCore.with_dragEventFor state DraggableCore.setDragging dragging].
    split; [destruct (enableUserSelectHack props); reflexivity|].
    split; [destruct (enableUserSelectHack props); reflexivity|].
    split; [apply register_keeps, register_In|apply register_In]. }
  split.
  - exact (Hfam eventsFor.touch).
  - exact (Hfam eventsFor.mouse).
Qed.


End TrackerMore.

(* ================================================================== *)
(** ** Further properties: the reconciler *)

Section ReconcilerMore.
Variable User : Type.
Variable dprops : DraggableProps User.
Variable dom : Dom.

Local Abbreviation cprops := (Draggable.renderCoreProps dprops dom).

Lemma clampToBounds_x (b : Bounds) (l r v : Qc) (py : num) :
  left b = Some (Fin l) -> right b = Some (Fin r) ->
  fst (clampToBounds b (Fin v) py) = Num.max (Num.min (Fin v) (Fin r)) (Fin l).
Proof.
  intros Hl Hr. unfold clampToBounds. rewrite Hl, Hr. reflexivity.
Qed.

(** One bounded move that the user does not veto. *)
Lemma bounded_step (nd : DomNode) (b : Bounds) (l r x0 s0 d : Qc)
    (rc : Reconciler User) (e : MouseTouchEvent) (cd : DraggableData) :
  dom_node dom = Some nd ->
  bounds dprops = BoundsRect b ->
  left b = Some (Fin l) -> right b = Some (Fin r) -> (l <= r)%Qc ->
  (forall e ui u, fst (onDrag (coreProps dprops) e ui u) = Ok RetVoid) ->
  ds_dragging (dstate rc) = true ->
  ds_x (dstate rc) = Fin x0 -> slackX (dstate rc) = Fin s0 ->
  (deltaX cd / scale (coreProps dprops))%num = Fin d ->
  exists x1 s1,
    ds_x (dstate (snd (Draggable.onDrag dprops dom e cd rc))) = Fin x1
    /\ slackX (dstate (snd (Draggable.onDrag dprops dom e cd rc))) = Fin s1
    /\ ds_dragging (dstate (snd (Draggable.onDrag dprops dom e cd rc))) = true
    /\ (x1 + s1 = x0 + s0 + d)%Qc
    /\ (l <= x1 /\ x1 <= r)%Qc.
Proof.
  intros Hnd Hb Hl Hr Hlr Hcb Hdr Hx Hs Hd.
  pose proof (@dragStep_bounded _ dprops dom b nd (dstate rc) cd Hb Hnd) as Hstep.
  cbn zeta in Hstep. rewrite Hd, Hx, Hs in Hstep. cbn [Num.add] in Hstep.
  rewrite (clampToBounds_x b (x0 + d + s0) _ Hl Hr) in Hstep.
  destruct (clamp_axis (x0 + d + s0) Hlr) as (c & Ec & Hc & _).
  rewrite Ec in Hstep.
  pose proof (@onDrag_run _ dprops dom rc e cd _ _ Hdr Hstep) as Hrun. cbn zeta in Hrun.
  match type of Hrun with
  | context [onDrag (coreProps dprops) e ?ui (user rc)] =>
    pose proof (Hcb e ui (user rc)) as Hv;
      destruct (onDrag (coreProps dprops) e ui (user rc)) as [v u]
  end.
  simpl in Hv. subst v. rewrite Hrun.
  cbn [is_false snd dstate Draggable.with_dstate ds_x slackX ds_dragging Num.sub Num.add].
  exists c, (s0 + (x0 + d - c))%Qc. repeat split; try tauto. ring.
Qed.


(** X19. A stop that is not vetoed ends the reconciler's drag with zero
    slack; under a controlled [position] the state, and the position
    rendered from it, go back to that position, and without one the
    dragged position stays. *)
Theorem stop_reverts_to_controlled_position
    (rc : Reconciler User) (e : MouseTouchEvent) (cd : DraggableData) :
  ds_dragging (dstate rc) = true ->
  (forall ui u, fst (onStop (coreProps dprops) e ui u) = Ok RetVoid) ->
  let st' := dstate (snd (Draggable.onDragStop dprops e cd rc)) in
  ds_dragging st' = false
  /\ (slackX st' = Num.zero /\ slackY st' = Num.zero)
  /\ (forall p, position dprops = Some p ->
        ds_x st' = cp_x p /\ ds_y st' = cp_y p
        /\ Draggable.renderedPosition dprops st' = p)
  /\ (position dprops = None ->
      ds_x st' = ds_x (dstate rc) /\ ds_y st' = ds_y (dstate rc)).
Proof.
  intros Hdr Hcb. cbn zeta. unfold Draggable.onDragStop. rewrite Hdr. cbn [negb].
  unfold Draggable.invokeUser.
  match goal with
  | |- context [onStop (coreProps dprops) e ?ui (user rc)] =>
    pose proof (Hcb ui (user rc)) as Hv;
      destruct (onStop (coreProps dprops) e ui (user rc)) as [v u]
  end.
  simpl in Hv. subst v. cbn [is_false snd dstate Draggable.with_dstate].
  split; [reflexivity|]. split; [split; reflexivity|]. split.
  - intros p Hp. unfold Draggable.renderedPosition. rewrite Hp.
    cbn [ds_x ds_y ds_dragging negb orb andb].
    rewrite !andb_false_r. destruct p. repeat split.
  - intros Hp. rewrite Hp. split; reflexivity.
Qed.

Lemma strict_neq_refl_fin (q : Qc) : Num.strict_neq (Fin q) (Fin q) = false.
Proof.
  cbn. destruct (Qc_eq_bool q q) eqn:E; [reflexivity|].
  exfalso. unfold Qc_eq_bool in E. destruct (Qc_eq_dec q q); [discriminate|congruence].
Qed.

Lemma strict_neq_of_neq (a b : num) : a <> b -> Num.strict_neq a b = true.
Proof.
  destruct a as [|p], b as [|q]; try reflexivity. intros H. cbn.
  destruct (Qc_eq_bool p q) eqn:E; [|reflexivity].
  apply Qc_eq_bool_correct in E. congruence.
Qed.

(** X20. [getDerivedStateFromProps] follows the controlled position
    only when it changes: without a [position], or with the position seen
    last, the state is returned as it is; a position that differs in a
    coordinate replaces x, y and the remembered position and nothing
    else; applying it twice is applying it once. *)
Theorem getDerivedStateFromProps_adopts_a_new_position (st : DraggableState) :
  (position dprops = None -> Draggable.getDerivedStateFromProps dprops st = st)
  /\ (forall px py,
        position dprops = Some {| cp_x := Fin px; cp_y := Fin py |} ->
        prevPropsPosition st = {| cp_x := Fin px; cp_y := Fin py |} ->
        Draggable.getDerivedStateFromProps dprops st = st)
  /\ (forall p,
        position dprops = Some p ->
        cp_x p <> cp_x (prevPropsPosition st) \/ cp_y p <> cp_y (prevPropsPosition st) ->
        let st' := Draggable.getDerivedStateFromProps dprops st in
        ds_x st' = cp_x p /\ ds_y st' = cp_y p /\ prevPropsPosition st' = p
        /\ ds_dragging st' = ds_dragging st
        /\ slackX st' = slackX st /\ slackY st' = slackY st)
  /\ Draggable.getDerivedStateFromProps dprops
       (Draggable.getDerivedStateFromProps dprops st)
     = Draggable.getDerivedStateFromProps dprops st.
Proof.
  split; [|split; [|split]].
  - intros Hp. unfold Draggable.getDerivedStateFromProps. now rewrite Hp.
  - intros px py Hp Hprev. unfold Draggable.getDerivedStateFromProps.
    rewrite Hp, Hprev. cbn [cp_x cp_y]. now rewrite !strict_neq_refl_fin.
  - intros p Hp Hne. cbn zeta. unfold Draggable.getDerivedStateFromProps. rewrite Hp.
    assert (E : Num.strict_neq (cp_x p) (cp_x (prevPropsPosition st))
                || Num.strict_neq (cp_y p) (cp_y (prevPropsPosition st)) = true).
    { apply orb_true_iff. destruct Hne as [H|H]; [left|right];
        now apply strict_neq_of_neq. }
    rewrite E. repeat split.
  - unfold Draggable.getDerivedStateFromProps.
    destruct (position dprops) as [p|] eqn:Hp; [|reflexivity].
    destruct (Num.strict_neq (cp_x p) (cp_x (prevPropsPosition st))
              || Num.strict_neq (cp_y p) (cp_y (prevPropsPosition st))) eqn:E.
    + cbn [prevPropsPosition ds_dragging ds_dragged slackX slackY isElementSVG].
      destruct (Num.strict_neq (cp_x p) (cp_x p) || Num.strict_neq (cp_y p) (cp_y p));
        reflexivity.
    + now rewrite E.
Qed.

(** [handleDragStop] under a reconciler that is not dragging. *)
Lemma handleDragStop_idle_reconciler (e : MouseTouchEvent) (w : World (Reconciler User)) :
  ds_dragging (dstate (host w)) = false ->
  let w' := snd (DraggableCore.handleDragStop cprops dom e w) in
  state w' = state w /\ host w' = host w /\ listeners w' = listeners w
  /\ selectGuard w' = selectGuard w /\ mounted w' = mounted w.
Proof.
  intros Hidle. cbn zeta.
  unfold DraggableCore.handleDragStop, bind, gets, lift.
  destruct (dragging (state w)); cbn [negb]; [|cbn; auto 6].
  destruct (DraggableCore.getControlPosition cprops dom e (touchIdentifier (state w)))
    as [[p|]|msg]; try (cbn; auto 6; fail).
  destruct (DraggableCore.snapStop cprops (state w) (cp_x p) (cp_y p)) as [sx sy].
  destruct (DraggableCore.createCoreData dom (state w) sx sy) as [d|msg];
    [|cbn; auto 6].
  unfold DraggableCore.invoke.
  cbn [host DraggableCore.with_call onStop Draggable.renderCoreProps].
  unfold Draggable.onDragStop. rewrite Hidle. cbn. auto 6.
Qed.

(** X21. A reconciler that is not dragging swallows the tracker's
    events: its [onDrag] and [onDragStop] return false without calling
    the user, and the tracker the move or stop came through keeps its
    state, its host and its listeners. *)
Theorem idle_reconciler_swallows_events
    (w : World (Reconciler User)) (e : MouseTouchEvent) :
  ds_dragging (dstate (host w)) = false ->
  (let w' := snd (DraggableCore.handleDrag cprops dom e w) in
   state w' = state w /\ host w' = host w /\ listeners w' = listeners w)
  /\ (let w' := snd (DraggableCore.handleDragStop cprops dom e w) in
      state w' = state w /\ host w' = host w /\ listeners w' = listeners w).
Proof.
  intros Hidle. split.
  2:{ destruct (handleDragStop_idle_reconciler e w Hidle) as (H1 & H2 & H3 & _).
      cbn zeta. auto. }
  cbn zeta. unfold DraggableCore.handleDrag, bind, gets, lift.
  destruct (DraggableCore.getControlPosition cprops dom e (touchIdentifier (state w)))
    as [[p|]|msg]; try (cbn; auto; fail).
  destruct (DraggableCore.snapDrag cprops (state w) (cp_x p) (cp_y p)) as [[sx sy]|];
    [|cbn; auto].
  destruct (DraggableCore.createCoreData dom (state w) sx sy) as [d|msg]; [|cbn; auto].
  unfold DraggableCore.invoke.
  cbn [host DraggableCore.with_call onDrag Draggable.renderCoreProps].
  unfold Draggable.onDrag. rewrite Hidle. cbn [negb is_false orb].
  set (w2 := DraggableCore.with_host (host w) (DraggableCore.with_call (CallDrag e d) w)).
  assert (Hidle2 : ds_dragging (dstate (host w2)) = false) by exact Hidle.
  unfold DraggableCore.try_catch.
  destruct (handleDragStop_idle_reconciler DraggableCore.syntheticMouseUp w2 Hidle2)
    as (A1 & A2 & A3 & _). cbn zeta in A1, A2, A3.
  destruct (DraggableCore.handleDragStop cprops dom DraggableCore.syntheticMouseUp w2)
    as [[v|msg] w3]; cbn [snd] in *.
  - cbn. rewrite A1, A2, A3. auto.
  - assert (Hidle3 : ds_dragging (dstate (host w3)) = false) by (rewrite A2; exact Hidle).
    destruct (handleDragStop_idle_reconciler DraggableCore.legacyMouseUp w3 Hidle3)
      as (B1 & B2 & B3 & _). cbn zeta in B1, B2, B3.
    destruct (DraggableCore.handleDragStop cprops dom DraggableCore.legacyMouseUp w3)
      as [[v|msg'] w4]; cbn [snd] in *; cbn;
      rewrite B1, B2, B3, A1, A2, A3; auto.
Qed.

(** X22. A start the user vetoes opens nothing: the reconciler's
    [onDragStart] passes the user's false on, its own state is not
    changed, the user has seen [onMouseDown] and [onStart], and the
    tracker does not start dragging, registers no listener and sets no
    selection guard. *)
Theorem user_start_veto_opens_nothing
    (w : World (Reconciler User)) (e : MouseTouchEvent) (nd : DomNode)
    (p : ControlPosition) :
  DraggableCore.notLeftClick cprops e = false ->
  DraggableCore.mountedNode dom = Some nd ->
  DraggableCore.shortCircuits cprops dom e nd = false ->
  DraggableCore.getControlPosition cprops dom e (getTouchIdentifier e) = Ok (Some p) ->
  (forall ui u, fst (onStart (coreProps dprops) e ui u) = Ok RetFalse) ->
  exists w' ui,
    DraggableCore.handleDragStart cprops dom e w = (Ok RetVoid, w')
    /\ dstate (host w') = dstate (host w)
    /\ userCalls (host w') = userCalls (host w) ++ [CallMouseDown e; CallStart e ui]
    /\ dragging (state w') = dragging (state w)
    /\ st_lastX (state w') = st_lastX (state w)
    /\ st_lastY (state w') = st_lastY (state w)
    /\ listeners w' = listeners w
    /\ selectGuard w' = selectGuard w.
Proof.
  intros Hbtn Hnode Hsc Hpos Hveto.
  destruct (@handleDragStart_run _ cprops dom w e nd p Hbtn Hnode Hsc Hpos)
    as (d & Hd & Hrun).
  cbn zeta in Hrun. rewrite Hrun.
  cbn [onStart Draggable.renderCoreProps]. unfold Draggable.onDragStart,
    Draggable.invokeUser.
  match goal with
  | |- context [onStart (coreProps dprops) e ?ui ?u] =>
    pose proof (Hveto ui u) as Hv;
      destruct (onStart (coreProps dprops) e ui u) as [v u'] eqn:Ecb
  end.
  simpl in Hv. subst v. cbn [is_false orb].
  eexists. eexists. split; [reflexivity|].
  cbn. rewrite <- app_assoc. repeat split.
Qed.


End ReconcilerMore.

(* ================================================================== *)
(** ** The further properties at concrete inputs *)


Lemma getTouch_of_getTouchIdentifier_witness :
  let e := Scenario.touchEvent "touchstart" [Scenario.finger 7 0 0]
             [Scenario.finger 7 0 0] in
  getTouchIdentifier e = TidNum 7
  /\ exists t,
       getTouch e 7 = Some t
       /\ identifier t = 7%Z
       /\ ((exists ts, e_targetTouches e = Some ts /\ In t ts)
           \/ (exists ts, e_changedTouches e = Some ts /\ In t ts)).
Proof.
  intros e. split; [reflexivity|].
  apply (@getTouch_of_getTouchIdentifier e 7%Z). reflexivity.
Defined.


Lemma matchesSelectorAndParentsTo_up_to_base_witness :
  matchesSelectorAndParentsTo Cases.withHandle (3%nat, [2%nat; 1%nat; 0%nat])
    ".handle" 1%nat = true
  /\ matchesSelectorAndParentsTo Cases.withHandle (3%nat, [1%nat; 2%nat])
       ".handle" 1%nat = false.
Proof.
  destruct (@matchesSelectorAndParentsTo_up_to_base Cases.withHandle ".handle" 1%nat)
    as (H & _ & _).
  split.
  - refine (eq_trans (H 3%nat [2%nat] [0%nat] _) eq_refl).
    intros [E|[E|[]]]; discriminate E.
  - refine (eq_trans (H 3%nat [] [2%nat] _) eq_refl).
    intros [E|[]]; discriminate E.
Defined.

Lemma getBoundPosition_within_bounds_witness :
  let bnds := BoundsRect {| left := Some (Fin (qz 0)); top := Some (Fin (qz 0));
                            right := Some (Fin (qz 100)); bottom := Some (Fin (qz 50)) |} in
  exists cx cy,
    getBoundPosition Scenario.dom bnds (Fin (qz 150)) (Fin (qz (-3)))
      = Ok (Fin cx, Fin cy)
    /\ ((qz 0 <= cx)%Qc /\ (cx <= qz 100)%Qc)
    /\ ((qz 0 <= cy)%Qc /\ (cy <= qz 50)%Qc).
Proof.
  intros bnds.
  destruct (@getBoundPosition_within_bounds Scenario.dom Scenario.theNode
              (qz 0) (qz 0) (qz 100) (qz 50) (qz 150) (qz (-3)) eq_refl)
    as (cx & cy & H & Hx & Hy & _).
  - discriminate.
  - discriminate.
  - exists cx, cy. split; [exact H|]. split; assumption.
Defined.

Lemma getBoundPosition_errors_witness :
  getBoundPosition Cases.unmounted (BoundsRect bounds_0_100) (Fin (qz 1)) (Fin (qz 2))
    = Throw "<DraggableCore>: Unmounted during event!"
  /\ getBoundPosition Scenario.dom (BoundsSelector ".frame") (Fin (qz 1)) (Fin (qz 2))
     = Throw ("Bounds selector " ++ dquote ++ ".frame" ++ dquote
              ++ " could not find an element.")%string.
Proof.
  split.
  - apply (proj1 (proj2 (@getBoundPosition_errors Cases.unmounted (Fin (qz 1)) (Fin (qz 2)))));
      reflexivity.
  - apply (proj1 (proj2 (proj2
             (@getBoundPosition_errors Scenario.dom (Fin (qz 1)) (Fin (qz 2)))))
             Scenario.theNode ".frame"%string); [reflexivity | discriminate | reflexivity].
Defined.

Lemma start_opens_session_witness :
  let e := Scenario.mouseEvent "mousedown" 4 9 in
  exists w' d,
    DraggableCore.handleDragStart Scenario.plainProps Scenario.dom e Scenario.idle
      = (Ok RetVoid, w')
    /\ calls w' = calls Scenario.idle ++ [CallMouseDown e; CallStart e d]
    /\ dragging (state w') = true
    /\ selectGuard w' = true
    /\ In (moveRegistration eventsFor.mouse) (listeners w')
    /\ In (stopRegistration eventsFor.mouse) (listeners w')
    /\ sessionListeners w'.
Proof.
  intros e.
  assert (Hpos : exists p,
             DraggableCore.getControlPosition Scenario.plainProps Scenario.dom e
               (getTouchIdentifier e) = Ok (Some p)).
  { eexists. vm_compute. reflexivity. }
  destruct Hpos as [p Hpos].
  destruct (@start_opens_session _ Scenario.plainProps Scenario.dom Scenario.idle e
              Scenario.theNode p)
    as (w' & d & Hrun & Hc & _ & _ & Hst & Hg & Hm & Hs & Hl).
  - reflexivity.
  - reflexivity.
  - reflexivity.
  - exact Hpos.
  - reflexivity.
  - intros d h. reflexivity.
  - exists w', d. split; [exact Hrun|]. split; [exact Hc|].
    split; [now rewrite Hst|]. split; [now apply Hg|].
    split; [exact Hm|]. split; [exact Hs|].
    apply Hl. intros r Hin. vm_compute in Hin.
    destruct Hin as [<-|[]]. reflexivity.
Defined.


Lemma unmounted_node_raises_witness :
  let e := Scenario.mouseEvent "mousedown" 0 0 in
  DraggableCore.handleDragStart Scenario.plainProps Cases.unmounted e Scenario.idle
  = (Throw "<DraggableCore> not mounted on DragStart!",
     afterMouseDown Scenario.plainProps e Scenario.idle).
Proof.
  intros e.
  apply (proj1 (@unmounted_node_raises _ Scenario.plainProps Cases.unmounted
                  Scenario.idle e)); reflexivity.
Defined.

Lemma second_stop_is_ignored_witness :
  let P := Scenario.plainProps in
  let w' := snd (DraggableCore.handleDragStop P Scenario.dom
                   (Scenario.mouseEvent "mouseup" 3 3) (Scenario.opened P)) in
  let e' := Scenario.mouseEvent "mouseup" 4 4 in
  (exists d, calls w' = calls (Scenario.opened P)
                        ++ [CallStop (Scenario.mouseEvent "mouseup" 3 3) d])
  /\ DraggableCore.handleDragStop P Scenario.dom e' w' = (Ok RetVoid, w')
  /\ DraggableCore.onMouseUp P Scenario.dom e' w'
     = (Ok RetVoid, DraggableCore.with_dragEventFor eventsFor.mouse w')
  /\ DraggableCore.onTouchEnd P Scenario.dom e' w'
     = (Ok RetVoid, DraggableCore.with_dragEventFor eventsFor.touch w').
Proof.
  intros P w' e'.
  assert (Hpos : exists p,
             DraggableCore.getControlPosition P Scenario.dom
               (Scenario.mouseEvent "mouseup" 3 3)
               (touchIdentifier (state (Scenario.opened P))) = Ok (Some p)).
  { eexists. vm_compute. reflexivity. }
  destruct Hpos as [p Hpos].
  apply (@second_stop_is_ignored _ P Scenario.dom (Scenario.opened P)
           (Scenario.mouseEvent "mouseup" 3 3) e' p).
  - vm_compute. reflexivity.
  - vm_compute. reflexivity.
  - exact Hpos.
  - intros d h. reflexivity.
Defined.


Lemma zero_grid_skips_every_move_witness :
  let w := Scenario.opened Cases.zeroGrid in
  snd (DraggableCore.handleDrag Cases.zeroGrid Scenario.dom
         (Scenario.mouseEvent "mousemove" 30 40) w) = w
  /\ DraggableCore.snapStop Cases.zeroGrid (state w) (Fin (qz 30)) (Fin (qz 40))
     = (NaN, NaN).
Proof.
  intros w.
  destruct (@zero_grid_skips_every_move _ Cases.zeroGrid Scenario.dom w
              (Scenario.mouseEvent "mousemove" 30 40) eq_refl) as [H1 H2].
  split; [exact H1 | apply H2].
Defined.


Lemma entry_points_choose_the_family_witness :
  let P := Scenario.plainProps in
  let e := Scenario.touchEvent "touchstart" [Scenario.finger 7 0 0]
             [Scenario.finger 7 0 0] in
  (let w' := snd (DraggableCore.onTouchStart P Scenario.dom e Scenario.idle) in
   dragging (state w') = true
   /\ dragEventFor w' = eventsFor.touch
   /\ In (moveRegistration eventsFor.touch) (listeners w')
   /\ In (stopRegistration eventsFor.touch) (listeners w'))
  /\ (let w' := snd (DraggableCore.onMouseDown P Scenario.dom e Scenario.idle) in
      dragging (state w') = true
      /\ dragEventFor w' = eventsFor.mouse
      /\ In (moveRegistration eventsFor.mouse) (listeners w')
      /\ In (stopRegistration eventsFor.mouse) (listeners w')).
Proof.
  intros P e.
  assert (Hpos : exists p,
             DraggableCore.getControlPosition P Scenario.dom e
               (getTouchIdentifier e) = Ok (Some p)).
  { eexists. vm_compute. reflexivity. }
  destruct Hpos as [p Hpos].
  apply (@entry_points_choose_the_family _ P Scenario.dom Scenario.idle e
           Scenario.theNode p).
  - reflexivity.
  - reflexivity.
  - reflexivity.
  - exact Hpos.
  - reflexivity.
  - intros d h. reflexivity.
Defined.



Lemma stop_reverts_to_controlled_position_witness :
  let e := Scenario.mouseEvent "mouseup" 30 0 in
  let st' := dstate (snd (Draggable.onDragStop Cases.controlled e (Scenario.coreMove 30)
                            (Scenario.draggingAt 30 7))) in
  ds_dragging st' = false
  /\ (slackX st' = Num.zero /\ slackY st' = Num.zero)
  /\ ds_x st' = Num.of_Z 10
  /\ ds_y st' = Num.of_Z 20
  /\ Draggable.renderedPosition Cases.controlled st'
     = {| cp_x := Num.of_Z 10; cp_y := Num.of_Z 20 |}.
Proof.
  intros e st'.
  destruct (@stop_reverts_to_controlled_position _ Cases.controlled
              (Scenario.draggingAt 30 7) e (Scenario.coreMove 30))
    as (Hd & Hs & Hp & _).
  - reflexivity.
  - intros ui u. reflexivity.
  - split; [exact Hd|]. split; [exact Hs|]. exact (Hp _ eq_refl).
Defined.

Lemma getDerivedStateFromProps_adopts_a_new_position_witness :
  let st := dstate (Scenario.draggingAt 30 7) in
  let st' := Draggable.getDerivedStateFromProps Cases.controlled st in
  ds_x st' = Num.of_Z 10
  /\ ds_y st' = Num.of_Z 20
  /\ prevPropsPosition st' = {| cp_x := Num.of_Z 10; cp_y := Num.of_Z 20 |}
  /\ ds_dragging st' = true
  /\ slackX st' = Num.of_Z 7
  /\ slackY st' = Num.zero.
Proof.
  intros st st'.
  destruct (@getDerivedStateFromProps_adopts_a_new_position _ Cases.controlled st)
    as (_ & _ & H & _).
  apply (H _ eq_refl). left. intros E. apply Fin_inj in E.
  apply (f_equal this) in E. discriminate E.
Defined.

Lemma idle_reconciler_swallows_events_witness :
  let w := Scenario.mountedReconciler Cases.free in
  (let w' := snd (DraggableCore.handleDrag (Draggable.renderCoreProps Cases.free Scenario.dom)
                    Scenario.dom (Scenario.mouseEvent "mousemove" 3 3) w) in
   state w' = state w /\ host w' = host w /\ listeners w' = listeners w)
  /\ (let w' := snd (DraggableCore.handleDragStop
                       (Draggable.renderCoreProps Cases.free Scenario.dom)
                       Scenario.dom (Scenario.mouseEvent "mousemove" 3 3) w) in
      state w' = state w /\ host w' = host w /\ listeners w' = listeners w).
Proof.
  intros w.
  apply (@idle_reconciler_swallows_events _ Cases.free Scenario.dom w
           (Scenario.mouseEvent "mousemove" 3 3)).
  reflexivity.
Defined.

Lemma user_start_veto_opens_nothing_witness :
  let w := Scenario.mountedReconciler Cases.vetoingStart in
  let e := Scenario.mouseEvent "mousedown" 0 0 in
  exists w' ui,
    DraggableCore.handleDragStart (Draggable.renderCoreProps Cases.vetoingStart Scenario.dom)
      Scenario.dom e w = (Ok RetVoid, w')
    /\ dstate (host w') = dstate (host w)
    /\ userCalls (host w') = userCalls (host w) ++ [CallMouseDown e; CallStart e ui]
    /\ dragging (state w') = dragging (state w)
    /\ st_lastX (state w') = st_lastX (state w)
    /\ st_lastY (state w') = st_lastY (state w)
    /\ listeners w' = listeners w
    /\ selectGuard w' = selectGuard w.
Proof.
  intros w e.
  assert (Hpos : exists p,
             DraggableCore.getControlPosition
               (Draggable.renderCoreProps Cases.vetoingStart Scenario.dom) Scenario.dom e
               (getTouchIdentifier e) = Ok (Some p)).
  { eexists. vm_compute. reflexivity. }
  destruct Hpos as [p Hpos].
  apply (@user_start_veto_opens_nothing _ Cases.vetoingStart Scenario.dom w e
           Scenario.theNode p).
  - reflexivity.
  - reflexivity.
  - reflexivity.
  - exact Hpos.
  - intros ui u. reflexivity.
Defined.

